(** * Room reservation application (src/app.py): shallow embedding

    The application is a Streamlit script.  Every page is a Python function
    that reads the SQL Server database through [execute_query] (SELECT
    statements) and changes it only through [execute_procedure] (EXEC of a
    stored procedure).  The pages are embedded as programs over these two
    storage operations; the stored procedures and the scalar function
    [dbo.fn_SalleDisponible] live in the database and are modelled from the
    specification.  The login page, the dashboard and the menu of [main]
    take no part in the scheduling and are not embedded. *)

From Stdlib Require Import String Ascii.
From Stdlib Require Import ZArith NArith List Bool Lia.
From Stdlib Require Import Permutation Sorted.
Import ListNotations.
Local Open Scope Z_scope.

(* ================================================================== *)
(** ** Python values: str, datetime.time *)
(* ================================================================== *)

(** A Python [str] is a sequence of Unicode code points. *)
Definition str := list N.

(** An ASCII literal as a [str]. *)
Definition lit (s : string) : str := map N_of_ascii (list_ascii_of_string s).

(** [str.isspace] on one code point: the characters CPython treats as
    whitespace (U+0009..U+000D, U+001C..U+0020, U+0085, U+00A0, U+1680,
    U+2000..U+200A, U+2028, U+2029, U+202F, U+205F, U+3000). *)
Definition isspace (c : N) : bool :=
  (((9 <=? c) && (c <=? 13)) || ((28 <=? c) && (c <=? 32))
   || (c =? 133) || (c =? 160) || (c =? 5760)
   || ((8192 <=? c) && (c <=? 8202))
   || (c =? 8232) || (c =? 8233) || (c =? 8239) || (c =? 8287)
   || (c =? 12288))%N.

Fixpoint lstrip (s : str) : str :=
  match s with
  | [] => []
  | c :: t => if isspace c then lstrip t else s
  end.

Definition rstrip (s : str) : str := rev (lstrip (rev s)).

(** [s.strip()] with no argument. *)
Definition strip (s : str) : str := rstrip (lstrip s).

(** Truth value of a [str]: [not s] holds exactly for the empty string. *)
Definition str_vide (s : str) : bool :=
  match s with [] => true | _ :: _ => false end.

Definition str_eqb (a b : str) : bool :=
  if list_eq_dec N.eq_dec a b then true else false.

(** [x in [a, b, ...]] on strings. *)
Definition str_in (x : str) (l : list str) : bool := existsb (str_eqb x) l.

(** [datetime.time] as returned by [st.time_input] (seconds and
    microseconds are zero); comparison is the lexicographic one of Python. *)
Record time := mk_time { hour : nat; minute : nat }.

Definition time_ltb (a b : time) : bool :=
  ((hour a <? hour b) || ((hour a =? hour b) && (minute a <? minute b)))%nat.

Definition time_leb (a b : time) : bool :=
  ((hour a <? hour b) || ((hour a =? hour b) && (minute a <=? minute b)))%nat.

Definition minutes (t : time) : Z := 60 * Z.of_nat (hour t) + Z.of_nat (minute t).

(* ================================================================== *)
(** ** The database: tables read and written by the application *)
(* ================================================================== *)

(** Column [Statut] of [Reservations]: the values the pages test
    ('EnAttente', 'Validee', 'Refusee') and the remaining one, shown as
    "Annulée" by the [else] branch of [mes_reservations_page]. *)
Inductive Statut := EnAttente | Validee | Refusee | Annulee.

Definition Statut_eqb (a b : Statut) : bool :=
  match a, b with
  | EnAttente, EnAttente | Validee, Validee
  | Refusee, Refusee | Annulee, Annulee => true
  | _, _ => false
  end.

Record Utilisateur := mk_Utilisateur {
  u_UserID : Z; u_Nom : str; u_Prenom : str; u_Email : str;
  u_MotDePasse : str; u_Role : str; u_Actif : bool }.

Record Salle := mk_Salle {
  s_SalleID : Z; s_NomSalle : str; s_Capacite : Z; s_Equipements : str;
  s_Localisation : str; s_Disponible : bool }.

Record TypeEvenement := mk_TypeEvenement {
  t_TypeID : Z; t_NomType : str; t_Description : str;
  t_DureeMin : Z; t_DureeMax : Z }.

(** Dates are day numbers, [DateCreation] a timestamp in minutes. *)
Record Reservation := mk_Reservation {
  r_ReservationID : Z; r_UserID : Z; r_SalleID : Z; r_TypeID : Z;
  r_ObjetReunion : str; r_DateReservation : Z;
  r_HeureDebut : time; r_HeureFin : time;
  r_Statut : Statut; r_DateCreation : Z;
  r_Commentaires : option str; r_ManagerID : option Z }.

(** [horloge] is the server clock (GETDATE()), in minutes. *)
Record DB := mk_DB {
  Utilisateurs : list Utilisateur;
  Salles : list Salle;
  TypesEvenements : list TypeEvenement;
  Reservations : list Reservation;
  horloge : Z }.

Definition avec_Reservations (d : DB) (rs : list Reservation) : DB :=
  mk_DB (Utilisateurs d) (Salles d) (TypesEvenements d) rs (horloge d).

Definition aujourdhui (d : DB) : Z := horloge d / 1440.

(* ================================================================== *)
(** ** The scheduling core held by the database *)
(* ================================================================== *)

(** Modelled from the spec: the error taxonomy of section 7, raised by the
    absent stored procedures. *)
Inductive Erreur :=
| InvalidInput | NotFound | Conflict | IllegalTransition | Forbidden
| StorageUnavailable.

(** Modelled from the spec: the actions of the state machine (section 4.4). *)
Inductive Action := Approve | Reject | Cancel.

(** Modelled from the spec: "Only Pending and Approved reservations count
    as active for overlap purposes" (the status test inside the absent
    [dbo.fn_SalleDisponible]). *)
Definition actif (s : Statut) : bool :=
  match s with EnAttente | Validee => true | Refusee | Annulee => false end.

(** Modelled from the spec: the overlap rule of the absent interval model,
    "start_a < end_b AND start_b < end_a" (half-open). *)
Definition Overlaps (debut_a fin_a debut_b fin_b : time) : bool :=
  time_ltb debut_a fin_b && time_ltb debut_b fin_a.

(** Modelled from the spec: [IsValid] of the absent interval model, "end
    after start, both times within a single day, date not in the past". *)
Definition IsValid (d : DB) (date : Z) (debut fin : time) : bool :=
  time_ltb debut fin && (aujourdhui d <=? date).

(** Modelled from the spec: the test the availability checker applies to
    each row, "active", same room, same date, and overlapping. *)
Definition occupe (salle date : Z) (debut fin : time) (r : Reservation) : bool :=
  actif (r_Statut r) && (r_SalleID r =? salle) && (r_DateReservation r =? date)
  && Overlaps (r_HeureDebut r) (r_HeureFin r) debut fin.

(** Modelled from the spec: the absent scalar function
    [dbo.fn_SalleDisponible], the availability checker of section 4.2:
    "retrieves all active reservations for the room on the interval's date
    and returns false if Overlaps is true for any of them; true
    otherwise". *)
Definition fn_SalleDisponible (d : DB) (salle date : Z) (debut fin : time) : bool :=
  negb (existsb (occupe salle date debut fin) (Reservations d)).

(** Modelled from the spec: the duration check of [CreateIfAvailable],
    "(end-start) duration within [DureeMin, DureeMax]", in minutes. *)
Definition duree_dans_bornes (t : TypeEvenement) (debut fin : time) : bool :=
  (t_DureeMin t <=? minutes fin - minutes debut)
  && (minutes fin - minutes debut <=? t_DureeMax t).

(** Modelled from the spec: the identifier the store gives a new
    reservation, one more than every identifier in use. *)
Definition prochain_id (rs : list Reservation) : Z :=
  1 + fold_right (fun r m => Z.max (r_ReservationID r) m) 0 rs.

(** Modelled from the spec: the absent stored procedure [sp_ReserverSalle],
    the store's [CreateIfAvailable] of section 4.3: the availability check
    and the insert are one atomic unit; it "fails with Conflict if the slot
    became unavailable, with InvalidInput if the candidate fails
    interval/duration validation, with NotFound if room or event type does
    not exist"; the new reservation has status Pending and the creation
    timestamp of the clock. *)
Definition CreateIfAvailable (user salle type : Z) (objet : str) (date : Z)
    (debut fin : time) (d : DB) : Erreur + DB :=
  match find (fun s => s_SalleID s =? salle) (Salles d),
        find (fun t => t_TypeID t =? type) (TypesEvenements d) with
  | Some _, Some t =>
      if negb (IsValid d date debut fin) then inl InvalidInput
      else if negb (duree_dans_bornes t debut fin) then inl InvalidInput
      else if negb (fn_SalleDisponible d salle date debut fin) then inl Conflict
      else inr (avec_Reservations d
                  (Reservations d ++
                   [mk_Reservation (prochain_id (Reservations d)) user salle type
                      objet date debut fin EnAttente (horloge d) None None]))
  | _, _ => inl NotFound
  end.

(** Modelled from the spec: the transition table of section 4.4. *)
Definition table (s : Statut) (a : Action) : option Statut :=
  match s, a with
  | EnAttente, Approve => Some Validee
  | EnAttente, Reject => Some Refusee
  | EnAttente, Cancel => Some Annulee
  | Validee, Cancel => Some Annulee
  | _, _ => None
  end.

(** The roles the pages accept as approvers: ['Manager', 'Admin']. *)
Definition roles_gestion : list str := [lit "Manager"; lit "Admin"].

(** Modelled from the spec: the "Allowed actor" column of section 4.4; the
    role is the one recorded for the actor in [Utilisateurs], the requester
    is the [UserID] of the reservation. *)
Definition autorise (d : DB) (acteur : Z) (a : Action) (cible : option Reservation) : bool :=
  let gestionnaire :=
    match find (fun u => u_UserID u =? acteur) (Utilisateurs d) with
    | Some u => str_in (u_Role u) roles_gestion
    | None => false
    end in
  match a with
  | Approve | Reject => gestionnaire
  | Cancel => gestionnaire
              || match cible with
                 | Some r => r_UserID r =? acteur
                 | None => false
                 end
  end.

(** Modelled from the spec: the write of [UpdateStatus] on one row, a
    compare-and-set on the current status that records the comment and,
    for an approver's decision, the approver. *)
Definition ecrire_statut (id : Z) (attendu nouveau : Statut) (acteur : Z)
    (a : Action) (comment : option str) (r : Reservation) : Reservation :=
  if (r_ReservationID r =? id) && Statut_eqb (r_Statut r) attendu then
    mk_Reservation (r_ReservationID r) (r_UserID r) (r_SalleID r) (r_TypeID r)
      (r_ObjetReunion r) (r_DateReservation r) (r_HeureDebut r) (r_HeureFin r)
      nouveau (r_DateCreation r)
      (match comment with Some c => Some c | None => r_Commentaires r end)
      (match a with Cancel => r_ManagerID r | _ => Some acteur end)
  else r.

(** Modelled from the spec: the store's [UpdateStatus] of section 4.3 behind
    the absent procedures [sp_ValiderReservation] and
    [sp_AnnulerReservation]: "error precedence is: role check, existence
    check, table lookup", and the write is a compare-and-set on the current
    status (section 5). *)
Definition UpdateStatus (acteur id : Z) (a : Action) (comment : option str)
    (d : DB) : Erreur + DB :=
  let cible := find (fun r => r_ReservationID r =? id) (Reservations d) in
  if negb (autorise d acteur a cible) then inl Forbidden
  else match cible with
       | None => inl NotFound
       | Some r =>
           match table (r_Statut r) a with
           | None => inl IllegalTransition
           | Some s' =>
               inr (avec_Reservations d
                      (map (ecrire_statut id (r_Statut r) s' acteur a comment)
                           (Reservations d)))
           end
       end.

(** Values bound to the '?' placeholders of an EXEC statement. *)
Inductive Valeur :=
| VInt (n : Z) | VStr (s : str) | VDate (d : Z) | VTime (t : time) | VNone.

(** The procedure names passed to [execute_procedure]. *)
Inductive Procedure :=
| sp_ReserverSalle | sp_ValiderReservation | sp_AnnulerReservation.

Definition commentaire_de (v : Valeur) : option (option str) :=
  match v with
  | VStr c => Some (Some c)
  | VNone => Some None
  | _ => None
  end.

(** Modelled from the spec: the absent stored procedures behind
    "EXEC name ?, ..., ?" with positional arguments, each call doing what
    the specification gives for the action that sends it.
    [sp_ReserverSalle] is [CreateIfAvailable] (its eighth argument is the
    output identifier); [sp_ValiderReservation], sent by "Valider", is the
    Approve transition; [sp_AnnulerReservation] with two arguments, sent by
    the requester's "Annuler", is the Cancel transition; with a third
    argument, the comment of a refusal sent by "Refuser", it is the Reject
    transition of the table of section 4.4 (Pending, Reject, Rejected).  A
    call that does not fit the signature is a caller error. *)
Definition exec_procedure (p : Procedure) (args : list Valeur) (d : DB) : Erreur + DB :=
  match p, args with
  | sp_ReserverSalle,
    [VInt user; VInt salle; VInt type; VStr objet; VDate date;
     VTime debut; VTime fin; VInt _] =>
      CreateIfAvailable user salle type objet date debut fin d
  | sp_ValiderReservation, [VInt manager; VInt id; c] =>
      match commentaire_de c with
      | Some c' => UpdateStatus manager id Approve c' d
      | None => inl InvalidInput
      end
  | sp_AnnulerReservation, [VInt user; VInt id] =>
      UpdateStatus user id Cancel None d
  | sp_AnnulerReservation, [VInt user; VInt id; c] =>
      match commentaire_de c with
      | Some c' => UpdateStatus user id Reject c' d
      | None => inl InvalidInput
      end
  | _, _ => inl InvalidInput
  end.

(* ================================================================== *)
(** ** Programs over the storage operations *)
(* ================================================================== *)

(** What [pd.read_sql] or [cursor.execute] raises: a failure of the link to
    the server, or the error raised by a stored procedure. *)
Inductive Exception := Panne | ErreurSQL (e : Erreur).

(** The messages by which the pages report an outcome ([st.error],
    [st.success] and the [st.info] of an empty listing).  The rendering of
    the widgets and of the listings (titles, [st.write], status badges,
    room details) is left out. *)
Inductive Message :=
| ErreurRequete                    (* "Erreur lors de l'exécution de la requête: ..." *)
| ErreurProcedure (e : Exception)  (* "Erreur lors de l'exécution de la procédure: ..." *)
| ImpossibleCharger                (* "Impossible de charger les données" *)
| ObjetObligatoire                 (* "L'objet de la réunion est obligatoire" *)
| HeureFinInvalide                 (* "L'heure de fin doit être supérieure à l'heure de début" *)
| SalleNonDisponible               (* "La salle n'est pas disponible pour ce créneau" *)
| ReservationCreee                 (* "Réservation créée avec succès! En attente de validation." *)
| AucuneReservation                (* "Vous n'avez aucune réservation" *)
| ReservationAnnulee               (* "Réservation annulée" *)
| AccesNonAutorise                 (* "Accès non autorisé" *)
| AucuneEnAttente                  (* "Aucune réservation en attente de validation" *)
| ReservationValidee               (* "Réservation validée" *)
| ReservationRefusee.              (* "Réservation refusée" *)

(** A script run: it returns, or stops at [st.rerun()], displays a message,
    reads with [pd.read_sql] ([None] when the call raises), or executes a
    stored procedure and commits ([Some e] when the call raises). *)
Inductive Prog (A : Type) : Type :=
| Ret (a : A)
| Rerun
| Afficher (m : Message) (k : Prog A)
| ReadSql {R : Type} (q : DB -> list R) (k : option (list R) -> Prog A)
| Execute (p : Procedure) (args : list Valeur) (k : option Exception -> Prog A).

Arguments Ret {A} a.
Arguments Rerun {A}.
Arguments Afficher {A} m k.
Arguments ReadSql {A R} q k.
Arguments Execute {A} p args k.

Fixpoint bind {A B : Type} (p : Prog A) (f : A -> Prog B) : Prog B :=
  match p with
  | Ret a => f a
  | Rerun => Rerun
  | Afficher m k => Afficher m (bind k f)
  | ReadSql q k => ReadSql q (fun r => bind (k r) f)
  | Execute p args k => Execute p args (fun r => bind (k r) f)
  end.

Notation "x <- c ;; k" := (bind c (fun x => k))
  (at level 61, c at next level, right associativity).
Notation "c ;;; k" := (bind c (fun _ => k))
  (at level 61, right associativity).

Definition st_error (m : Message) : Prog unit := Afficher m (Ret tt).
Definition st_success (m : Message) : Prog unit := Afficher m (Ret tt).
Definition st_info (m : Message) : Prog unit := Afficher m (Ret tt).
Definition st_rerun : Prog unit := Rerun.

(** The two storage operations on a database state, on an open connection;
    [panne] tells whether this call raises inside the [try] ([pd.read_sql],
    [cursor.execute] or [conn.commit] fails). *)
Definition lire {R : Type} (q : DB -> list R) (panne : bool) (d : DB) : option (list R) :=
  if panne then None else Some (q d).

Definition executer (p : Procedure) (args : list Valeur) (panne : bool) (d : DB)
  : option Exception * DB :=
  if panne then (Some Panne, d)
  else match exec_procedure p args d with
       | inl e => (Some (ErreurSQL e), d)
       | inr d' => (None, d')
       end.

(** *** One script run on its own *)

Inductive Issue (A : Type) := Termine (a : A) | Relance.
Arguments Termine {A} a.
Arguments Relance {A}.

Record Bilan (A : Type) := mk_Bilan {
  issue : Issue A;
  base : DB;
  pannes_restantes : list bool;
  ecran : list Message }.
Arguments mk_Bilan {A}.
Arguments issue {A}.
Arguments base {A}.
Arguments pannes_restantes {A}.
Arguments ecran {A}.

(** [pannes] schedules the failures of the successive storage calls (none
    once the list is exhausted); [e] is what the screen already shows. *)
Fixpoint run {A : Type} (p : Prog A) (pannes : list bool) (d : DB)
    (e : list Message) : Bilan A :=
  match p with
  | Ret a => mk_Bilan (Termine a) d pannes e
  | Rerun => mk_Bilan Relance d pannes e
  | Afficher m k => run k pannes d (e ++ [m])
  | ReadSql q k => run (k (lire q (hd false pannes) d)) (tl pannes) d e
  | Execute p args k =>
      run (k (fst (executer p args (hd false pannes) d))) (tl pannes)
          (snd (executer p args (hd false pannes) d)) e
  end.

(** *** Several sessions interleaved *)

Record Fil := mk_Fil { prog : Prog unit; affichage : list Message }.

Record Systeme := mk_Systeme { donnees : DB; fils : list Fil }.

(** The scheduler picks a session and lets it perform its next operation,
    or lets the clock advance. *)
Inductive Choix := Pas (i : nat) (panne : bool) | Tic (dt : N).

Definition pas_fil (panne : bool) (d : DB) (f : Fil) : Fil * DB :=
  match prog f with
  | Ret _ => (f, d)
  | Rerun => (f, d)
  | Afficher m k => (mk_Fil k (affichage f ++ [m]), d)
  | ReadSql q k => (mk_Fil (k (lire q panne d)) (affichage f), d)
  | Execute p args k =>
      (mk_Fil (k (fst (executer p args panne d))) (affichage f),
       snd (executer p args panne d))
  end.

Fixpoint remplace {A : Type} (i : nat) (x : A) (l : list A) {struct l} : list A :=
  match l with
  | [] => []
  | y :: t =>
      match i with
      | O => x :: t
      | S j => y :: remplace j x t
      end
  end.

Definition etape (s : Systeme) (c : Choix) : Systeme :=
  match c with
  | Tic dt =>
      mk_Systeme (mk_DB (Utilisateurs (donnees s)) (Salles (donnees s))
                    (TypesEvenements (donnees s)) (Reservations (donnees s))
                    (horloge (donnees s) + Z.of_N dt))
                 (fils s)
  | Pas i panne =>
      match nth_error (fils s) i with
      | None => s
      | Some f =>
          mk_Systeme (snd (pas_fil panne (donnees s) f))
                     (remplace i (fst (pas_fil panne (donnees s) f)) (fils s))
      end
  end.

Definition executer_plan (plan : list Choix) (s : Systeme) : Systeme :=
  fold_left etape plan s.

Definition termine (f : Fil) : bool :=
  match prog f with
  | Ret _ => true
  | Rerun => true
  | _ => false
  end.

(* ================================================================== *)
(** ** src/app.py: data access *)
(* ================================================================== *)

(** [execute_query], lines 36-44: the exception of [pd.read_sql] is caught,
    reported with [st.error] and replaced by an empty DataFrame.  Line 33,
    [conn = init_connection()], is outside the [try]: it returns the
    connection cached by [st.cache_resource] (never [None]), and when the
    connection cannot be opened its exception is caught by nothing; that
    case is the matter of [run_connexion] below, and [run], [suivre] and the
    interleaved steps are the runs on an open connection. *)
Definition execute_query {R : Type} (query : DB -> list R) : Prog (list R) :=
  ReadSql query (fun r =>
    match r with
    | Some df => Ret df
    | None => Afficher ErreurRequete (Ret [])
    end).

(** [execute_procedure], lines 54-64: "EXEC proc ?, ..., ?" on the values
    of [params] in order, then commit; an exception of these is reported
    and gives [False].  Line 50, [conn = init_connection()], is outside the
    [try], as in [execute_query]. *)
Definition execute_procedure (proc_name : Procedure) (params : list Valeur) : Prog bool :=
  Execute proc_name params (fun r =>
    match r with
    | None => Ret true
    | Some e => Afficher (ErreurProcedure e) (Ret false)
    end).

(** ORDER BY, as an insertion sort on the ordering of the clause. *)
Fixpoint insere {A : Type} (le : A -> A -> bool) (x : A) (l : list A) : list A :=
  match l with
  | [] => [x]
  | y :: t => if le x y then x :: l else y :: insere le x t
  end.

Definition order_by {A : Type} (le : A -> A -> bool) (l : list A) : list A :=
  fold_right (insere le) [] l.

Fixpoint str_leb (a b : str) : bool :=
  match a, b with
  | [], _ => true
  | _ :: _, [] => false
  | x :: a', y :: b' => ((x <? y) || ((x =? y) && str_leb a' b'))%N
  end.

(** [get_salles]: SELECT ... FROM Salles WHERE Disponible = 1 ORDER BY
    NomSalle (the rows keep the column [Disponible], always 1 here; names
    are ordered by code point). *)
Definition q_salles (d : DB) : list Salle :=
  order_by (fun a b => str_leb (s_NomSalle a) (s_NomSalle b))
           (filter s_Disponible (Salles d)).

Definition get_salles : Prog (list Salle) := execute_query q_salles.

(** [get_types_evenements]: SELECT ... FROM TypesEvenements ORDER BY NomType. *)
Definition q_types_evenements (d : DB) : list TypeEvenement :=
  order_by (fun a b => str_leb (t_NomType a) (t_NomType b)) (TypesEvenements d).

Definition get_types_evenements : Prog (list TypeEvenement) :=
  execute_query q_types_evenements.

(** Rows of [get_reservations_user]. *)
Record LigneUser := mk_LigneUser {
  lu_ReservationID : Z; lu_NomSalle : str; lu_ObjetReunion : str;
  lu_DateReservation : Z; lu_HeureDebut : time; lu_HeureFin : time;
  lu_Statut : Statut; lu_NomType : str }.

(** [get_reservations_user]: Reservations joined with Salles and
    TypesEvenements, WHERE r.UserID = ?, ORDER BY r.DateReservation DESC,
    r.HeureDebut DESC. *)
Definition q_reservations_user (user_id : Z) (d : DB) : list LigneUser :=
  order_by
    (fun a b => (lu_DateReservation b <? lu_DateReservation a)
                || ((lu_DateReservation a =? lu_DateReservation b)
                    && time_leb (lu_HeureDebut b) (lu_HeureDebut a)))
    (flat_map (fun r =>
       flat_map (fun s =>
         flat_map (fun te =>
           [mk_LigneUser (r_ReservationID r) (s_NomSalle s) (r_ObjetReunion r)
              (r_DateReservation r) (r_HeureDebut r) (r_HeureFin r)
              (r_Statut r) (t_NomType te)])
           (filter (fun te => r_TypeID r =? t_TypeID te) (TypesEvenements d)))
         (filter (fun s => r_SalleID r =? s_SalleID s) (Salles d)))
       (filter (fun r => r_UserID r =? user_id) (Reservations d))).

Definition get_reservations_user (user_id : Z) : Prog (list LigneUser) :=
  execute_query (q_reservations_user user_id).

(** Rows of [get_reservations_pending]. *)
Record LignePending := mk_LignePending {
  lp_ReservationID : Z; lp_Demandeur : str; lp_NomSalle : str;
  lp_ObjetReunion : str; lp_DateReservation : Z;
  lp_HeureDebut : time; lp_HeureFin : time; lp_NomType : str;
  lp_DateCreation : Z }.

Definition ligne_pending (r : Reservation) (u : Utilisateur) (s : Salle)
    (te : TypeEvenement) : LignePending :=
  mk_LignePending (r_ReservationID r) (u_Nom u ++ lit " " ++ u_Prenom u)
    (s_NomSalle s) (r_ObjetReunion r) (r_DateReservation r)
    (r_HeureDebut r) (r_HeureFin r) (t_NomType te) (r_DateCreation r).

(** [get_reservations_pending]: Reservations joined with Utilisateurs,
    Salles and TypesEvenements, WHERE r.Statut = 'EnAttente', ORDER BY
    r.DateCreation ASC. *)
Definition q_reservations_pending (d : DB) : list LignePending :=
  order_by (fun a b => lp_DateCreation a <=? lp_DateCreation b)
    (flat_map (fun r =>
       flat_map (fun u =>
         flat_map (fun s =>
           flat_map (fun te => [ligne_pending r u s te])
             (filter (fun te => r_TypeID r =? t_TypeID te) (TypesEvenements d)))
           (filter (fun s => r_SalleID r =? s_SalleID s) (Salles d)))
         (filter (fun u => r_UserID r =? u_UserID u) (Utilisateurs d)))
       (filter (fun r => Statut_eqb (r_Statut r) EnAttente) (Reservations d))).

Definition get_reservations_pending : Prog (list LignePending) :=
  execute_query q_reservations_pending.

(** [check_availability]: SELECT dbo.fn_SalleDisponible(?, ?, ?, ?) as
    Disponible; [bool(result.iloc[0]['Disponible'])] if the DataFrame is
    not empty, else [False]. *)
Definition q_disponible (salle_id date_res : Z) (heure_debut heure_fin : time)
    (d : DB) : list bool :=
  [fn_SalleDisponible d salle_id date_res heure_debut heure_fin].

Definition check_availability (salle_id date_res : Z) (heure_debut heure_fin : time)
  : Prog bool :=
  result <- execute_query (q_disponible salle_id date_res heure_debut heure_fin) ;;
  Ret (match result with
       | Disponible :: _ => Disponible
       | [] => false
       end).

(* ================================================================== *)
(** ** src/app.py: pages *)
(* ================================================================== *)

(** [st.session_state.user]: the row returned by [authenticate_user]. *)
Record User := mk_User {
  UserID : Z; Nom : str; Prenom : str; Email : str; Role : str; Actif : bool }.

(** [df.empty]. *)
Definition df_empty {R : Type} (df : list R) : bool :=
  match df with [] => true | _ :: _ => false end.

(** The values of the widgets of "reservation_form" when the script runs
    ([salle_selected] and [type_selected] are picked among the loaded rows,
    [date_reservation] not before today: the widgets see to it). *)
Record Formulaire := mk_Formulaire {
  salle_selected : Z;
  type_selected : Z;
  date_reservation : Z;
  heure_debut : time;
  heure_fin : time;
  objet_reunion : str;
  submit : bool }.

(** [reservation_page], lines 229-243: the call of [sp_ReserverSalle]. *)
Definition reserver (user : User) (f : Formulaire) : Prog unit :=
  ok <- execute_procedure sp_ReserverSalle
          [VInt (UserID user); VInt (salle_selected f); VInt (type_selected f);
           VStr (strip (objet_reunion f)); VDate (date_reservation f);
           VTime (heure_debut f); VTime (heure_fin f); VInt 0] ;;
  if ok then st_success ReservationCreee ;;; st_rerun else Ret tt.

(** [reservation_page], lines 215-243: the body of [if submit:]. *)
Definition soumettre (user : User) (f : Formulaire) : Prog unit :=
  if str_vide (strip (objet_reunion f)) then st_error ObjetObligatoire
  else if time_leb (heure_fin f) (heure_debut f) then st_error HeureFinInvalide
  else
    dispo <- check_availability (salle_selected f) (date_reservation f)
               (heure_debut f) (heure_fin f) ;;
    if negb dispo then st_error SalleNonDisponible
    else reserver user f.

(** [reservation_page]. *)
Definition reservation_page (user : User) (f : Formulaire) : Prog unit :=
  salles <- get_salles ;;
  types_evenements <- get_types_evenements ;;
  if df_empty salles || df_empty types_evenements then st_error ImpossibleCharger
  else if submit f then soumettre user f
  else Ret tt.

(** [st.button(..., key=...)]: true in the run triggered by a click on the
    widget with this key. *)
Definition bouton {K : Type} (eqb : K -> K -> bool) (clic : option K) (key : K) : bool :=
  match clic with
  | Some c => eqb c key
  | None => false
  end.

(** [mes_reservations_page], lines 270-300: the loop over the rows. *)
Fixpoint boucle_mes_reservations (user : User) (clic : option Z)
    (rows : list LigneUser) : Prog unit :=
  match rows with
  | [] => Ret tt
  | reservation :: suite =>
      (if existsb (Statut_eqb (lu_Statut reservation)) [EnAttente; Validee]
       then
         if bouton Z.eqb clic (lu_ReservationID reservation) then
           ok <- execute_procedure sp_AnnulerReservation
                   [VInt (UserID user); VInt (lu_ReservationID reservation)] ;;
           if ok then st_success ReservationAnnulee ;;; st_rerun else Ret tt
         else Ret tt
       else Ret tt) ;;;
      boucle_mes_reservations user clic suite
  end.

(** [mes_reservations_page]; [statut_filter] is [None] for 'Tous'. *)
Definition mes_reservations_page (user : User) (statut_filter : option Statut)
    (clic : option Z) : Prog unit :=
  reservations <- get_reservations_user (UserID user) ;;
  if df_empty reservations then st_info AucuneReservation
  else
    boucle_mes_reservations user clic
      (match statut_filter with
       | Some s => filter (fun r => Statut_eqb (lu_Statut r) s) reservations
       | None => reservations
       end).

Inductive Bouton := Valider | Refuser.

Definition cle_eqb (a b : Bouton * Z) : bool :=
  match fst a, fst b with
  | Valider, Valider | Refuser, Refuser => snd a =? snd b
  | _, _ => false
  end.

(** "Refusée par manager". *)
Definition Refusee_par_manager : str :=
  lit "Refus" ++ [233%N] ++ lit "e par manager".

(** [validation_page], lines 318-359: the loop over the pending rows;
    [commentaires] gives the content of each "comment_<id>" text area. *)
Fixpoint boucle_validation (user : User) (clic : option (Bouton * Z))
    (commentaires : Z -> str) (rows : list LignePending) : Prog unit :=
  match rows with
  | [] => Ret tt
  | reservation :: suite =>
      (if bouton cle_eqb clic (Valider, lp_ReservationID reservation) then
         ok <- execute_procedure sp_ValiderReservation
                 [VInt (UserID user); VInt (lp_ReservationID reservation);
                  if str_vide (commentaires (lp_ReservationID reservation))
                  then VNone
                  else VStr (commentaires (lp_ReservationID reservation))] ;;
         if ok then st_success ReservationValidee ;;; st_rerun else Ret tt
       else Ret tt) ;;;
      (if bouton cle_eqb clic (Refuser, lp_ReservationID reservation) then
         (* Pour refuser, on peut utiliser la procédure d'annulation *)
         ok <- execute_procedure sp_AnnulerReservation
                 [VInt (UserID user); VInt (lp_ReservationID reservation);
                  VStr (if str_vide (commentaires (lp_ReservationID reservation))
                        then Refusee_par_manager
                        else Refusee_par_manager ++ lit ": "
                             ++ commentaires (lp_ReservationID reservation))] ;;
         if ok then st_success ReservationRefusee ;;; st_rerun else Ret tt
       else Ret tt) ;;;
      boucle_validation user clic commentaires suite
  end.

(** [validation_page]. *)
Definition validation_page (user : User) (clic : option (Bouton * Z))
    (commentaires : Z -> str) : Prog unit :=
  if negb (str_in (Role user) [lit "Manager"; lit "Admin"])
  then st_error AccesNonAutorise
  else
    reservations <- get_reservations_pending ;;
    if df_empty reservations then st_info AucuneEnAttente
    else boucle_validation user clic commentaires reservations.

(** The error messages of the pages read in the taxonomy of the
    specification; success and information messages are no error. *)
Definition categorie (m : Message) : option Erreur :=
  match m with
  | ErreurRequete => Some StorageUnavailable
  | ErreurProcedure Panne => Some StorageUnavailable
  | ErreurProcedure (ErreurSQL e) => Some e
  | ImpossibleCharger => Some StorageUnavailable
  | ObjetObligatoire => Some InvalidInput
  | HeureFinInvalide => Some InvalidInput
  | SalleNonDisponible => Some Conflict
  | AccesNonAutorise => Some Forbidden
  | ReservationCreee | AucuneReservation | ReservationAnnulee
  | AucuneEnAttente | ReservationValidee | ReservationRefusee => None
  end.

(* ================================================================== *)
(** ** Sample data *)
(* ================================================================== *)

Definition h (hh mm : nat) : time := mk_time hh mm.

Definition alice : Utilisateur :=
  mk_Utilisateur 1 (lit "Martin") (lit "Alice") (lit "alice@entreprise.com")
    (lit "secret") (lit "Employe") true.

Definition marc : Utilisateur :=
  mk_Utilisateur 2 (lit "Durand") (lit "Marc") (lit "marc@entreprise.com")
    (lit "secret") (lit "Manager") true.

Definition session (u : Utilisateur) : User :=
  mk_User (u_UserID u) (u_Nom u) (u_Prenom u) (u_Email u) (u_Role u) (u_Actif u).

Definition R101 : Salle :=
  mk_Salle 101 (lit "R101") 8 (lit "Ecran") (lit "Etage 1") true.

(** A meeting type lasting from 30 to 120 minutes. *)
Definition reunion : TypeEvenement :=
  mk_TypeEvenement 1 (lit "Reunion") (lit "Reunion interne") 30 120.

(** Day 19875, at midnight; no reservation yet. *)
Definition base_vide : DB :=
  mk_DB [alice; marc] [R101] [reunion] [] (19875 * 1440).

Definition demande (debut fin : time) (objet : str) : Formulaire :=
  mk_Formulaire 101 1 19876 debut fin objet true.

(* ================================================================== *)
(** ** Properties *)
(* ================================================================== *)

(** The form with another text in the subject area. *)
Definition avec_objet (f : Formulaire) (s : str) : Formulaire :=
  mk_Formulaire (salle_selected f) (type_selected f) (date_reservation f)
    (heure_debut f) (heure_fin f) s (submit f).

(** The page could show its form: both catalogue queries answered with at
    least one row. *)
Definition formulaire_affiche (pannes : list bool) (d : DB) : Prop :=
  hd false pannes = false /\ hd false (tl pannes) = false
  /\ df_empty (q_salles d) = false /\ df_empty (q_types_evenements d) = false.

(** No double booking: two distinct rows that are active, for the same room
    and date, do not overlap. *)
Definition sans_double_reservation (rs : list Reservation) : Prop :=
  forall i j a b,
    i <> j -> nth_error rs i = Some a -> nth_error rs j = Some b ->
    actif (r_Statut a) = true -> actif (r_Statut b) = true ->
    r_SalleID a = r_SalleID b -> r_DateReservation a = r_DateReservation b ->
    ~ (time_ltb (r_HeureDebut a) (r_HeureFin b) = true
       /\ time_ltb (r_HeureDebut b) (r_HeureFin a) = true).

(** The foreign keys of [Reservations]: each row references exactly one
    user, one room and one event type. *)
Definition cles_etrangeres (d : DB) : bool :=
  forallb (fun r =>
    Nat.eqb (length (filter (fun u => r_UserID r =? u_UserID u) (Utilisateurs d))) 1
    && Nat.eqb (length (filter (fun s => r_SalleID r =? s_SalleID s) (Salles d))) 1
    && Nat.eqb (length (filter (fun te => r_TypeID r =? t_TypeID te)
                                (TypesEvenements d))) 1)
    (Reservations d).

(** The columns a pending row takes from [Reservations]. *)
Definition colonnes_reservation (r : Reservation) : Z * str * Z * time * time * Z :=
  (r_ReservationID r, r_ObjetReunion r, r_DateReservation r,
   r_HeureDebut r, r_HeureFin r, r_DateCreation r).

Definition colonnes_pending (l : LignePending) : Z * str * Z * time * time * Z :=
  (lp_ReservationID l, lp_ObjetReunion l, lp_DateReservation l,
   lp_HeureDebut l, lp_HeureFin l, lp_DateCreation l).

(** A text that does not begin with a whitespace character. *)
Definition debute_sans_blanc (s : str) : Prop :=
  match s with
  | [] => True
  | c :: _ => isspace c = false
  end.

(** Four reservations of room R101 on day 19876: two pending ones created
    in reverse order of their identifiers, an approved and a cancelled
    one. *)
Definition base_exemple : DB :=
  mk_DB [alice; marc] [R101] [reunion]
    [mk_Reservation 1 1 101 1 (lit "Point hebdo") 19876 (h 9 0) (h 10 0)
       EnAttente (19875 * 1440 + 50) None None;
     mk_Reservation 2 1 101 1 (lit "Revue") 19876 (h 10 0) (h 11 0)
       Validee (19875 * 1440 + 20) None (Some 2);
     mk_Reservation 3 2 101 1 (lit "Entretien") 19876 (h 14 0) (h 15 0)
       EnAttente (19875 * 1440 + 10) None None;
     mk_Reservation 4 1 101 1 (lit "Atelier") 19876 (h 9 30) (h 10 30)
       Annulee (19875 * 1440 + 5) None None]
    (19875 * 1440 + 60).

(** The comment the "Refuser" button passes to the cancellation procedure. *)
Definition commentaire_refus (commentaires : str) : str :=
  if str_vide commentaires then Refusee_par_manager
  else Refusee_par_manager ++ lit ": " ++ commentaires.

(** *** A race for one slot

    Several sessions submit the reservation form for the same room, date
    and interval.  [Stade] tells how far a session has got: before its
    availability check, between the check and the procedure call, or
    done. *)
Inductive Stade :=
| S_debut        (* nothing read yet *)
| S_salles       (* rooms loaded *)
| S_formulaire   (* event types loaded, form submitted *)
| S_libre        (* the check answered "available" *)
| S_pris         (* the check answered "not available" *)
| S_cree         (* the procedure has inserted the reservation *)
| S_conflit      (* the procedure has raised Conflict *)
| S_fin_succes   (* "Réservation créée" displayed, rerun *)
| S_fin_pris     (* "La salle n'est pas disponible" displayed *)
| S_fin_conflit. (* the procedure error displayed *)

(** What remains of [reservation_page] at each stage, for the rooms read
    in [d0]. *)
Definition prog_stade (d0 : DB) (user : User) (f : Formulaire) (st : Stade)
  : Prog unit :=
  match st with
  | S_debut => reservation_page user f
  | S_salles =>
      types_evenements <- get_types_evenements ;;
      if df_empty (q_salles d0) || df_empty types_evenements
      then st_error ImpossibleCharger
      else if submit f then soumettre user f
      else Ret tt
  | S_formulaire => soumettre user f
  | S_libre => reserver user f
  | S_pris => st_error SalleNonDisponible
  | S_cree => st_success ReservationCreee ;;; st_rerun
  | S_conflit => st_error (ErreurProcedure (ErreurSQL Conflict))
  | S_fin_succes => Rerun
  | S_fin_pris => Ret tt
  | S_fin_conflit => Ret tt
  end.

Definition ecran_stade (st : Stade) : list Message :=
  match st with
  | S_fin_succes => [ReservationCreee]
  | S_fin_pris => [SalleNonDisponible]
  | S_fin_conflit => [ErreurProcedure (ErreurSQL Conflict)]
  | _ => []
  end.

Definition fil_stade (d0 : DB) (dem : User * Formulaire) (st : Stade) : Fil :=
  mk_Fil (prog_stade d0 (fst dem) (snd dem) st) (ecran_stade st).

(** The stage reached by one more operation, [libre] telling whether the
    slot is free in the database at that moment. *)
Definition suivant (libre : bool) (st : Stade) : Stade :=
  match st with
  | S_debut => S_salles
  | S_salles => S_formulaire
  | S_formulaire => if libre then S_libre else S_pris
  | S_libre => if libre then S_cree else S_conflit
  | S_pris => S_fin_pris
  | S_cree => S_fin_succes
  | S_conflit => S_fin_conflit
  | S_fin_succes => S_fin_succes
  | S_fin_pris => S_fin_pris
  | S_fin_conflit => S_fin_conflit
  end.

Definition avant (st : Stade) : bool :=
  match st with
  | S_debut | S_salles | S_formulaire | S_libre => true
  | _ => false
  end.

Definition gagnant (st : Stade) : bool :=
  match st with
  | S_cree | S_fin_succes => true
  | _ => false
  end.

Definition time_eqb (a b : time) : bool :=
  ((hour a =? hour b) && (minute a =? minute b))%nat.

(** A submitted form for the slot that passes every validation of the page
    and of the store in [d0]. *)
Definition demande_valide (d0 : DB) (salle date : Z) (debut fin : time)
    (dem : User * Formulaire) : bool :=
  submit (snd dem)
  && (salle_selected (snd dem) =? salle)
  && (date_reservation (snd dem) =? date)
  && time_eqb (heure_debut (snd dem)) debut
  && time_eqb (heure_fin (snd dem)) fin
  && time_ltb debut fin
  && negb (str_vide (strip (objet_reunion (snd dem))))
  && (aujourdhui d0 <=? date)
  && match find (fun s => s_SalleID s =? salle) (Salles d0) with
     | Some _ => true
     | None => false
     end
  && match find (fun t => t_TypeID t =? type_selected (snd dem))
                (TypesEvenements d0) with
     | Some t => duree_dans_bornes t (heure_debut (snd dem)) (heure_fin (snd dem))
     | None => false
     end.

(** The scheduler lets a session perform an operation that the server
    answers. *)
Definition sans_panne (c : Choix) : bool :=
  match c with
  | Pas _ false => true
  | _ => false
  end.

(** The sessions at the start of the race, each about to run the page with
    its submitted form. *)
Definition course (d0 : DB) (demandes : list (User * Formulaire)) : Systeme :=
  mk_Systeme d0
    (map (fun dem => mk_Fil (reservation_page (fst dem) (snd dem)) []) demandes).

(** Alice and Marc ask for room R101 from 9:00 to 10:00 on the same day;
    both pass the availability check before either calls the procedure. *)
Definition demandes_exemple : list (User * Formulaire) :=
  [(session alice, demande (h 9 0) (h 10 0) (lit "Point hebdo"));
   (session marc, demande (h 9 0) (h 10 0) (lit " Revue "))].

Definition plan_exemple : list Choix :=
  [Pas 0 false; Pas 1 false; Pas 0 false; Pas 1 false; Pas 0 false;
   Pas 1 false; Pas 1 false; Pas 0 false; Pas 0 false; Pas 1 false].

(** The row [sp_ReserverSalle] inserts for a request of the race. *)
Definition nouvelle (d0 : DB) (salle date : Z) (debut fin : time)
    (dem : User * Formulaire) : Reservation :=
  mk_Reservation (prochain_id (Reservations d0)) (UserID (fst dem)) salle
    (type_selected (snd dem)) (strip (objet_reunion (snd dem))) date debut fin
    EnAttente (horloge d0) None None.

(** What holds all along a race: either the slot is still free and no
    session is past its procedure call, or one row has been added for the
    slot and exactly the session [w] has had its request accepted. *)
Definition invariant_course (d0 : DB) (salle date : Z) (debut fin : time)
    (demandes : list (User * Formulaire)) (s : Systeme) : Prop :=
  length (fils s) = length demandes
  /\ ((donnees s = avec_Reservations d0 (Reservations d0)
       /\ forall i dem, nth_error demandes i = Some dem ->
            exists st, nth_error (fils s) i = Some (fil_stade d0 dem st)
                       /\ avant st = true)
      \/ (exists w dem_w,
            nth_error demandes w = Some dem_w
            /\ donnees s
               = avec_Reservations d0
                   (Reservations d0 ++ [nouvelle d0 salle date debut fin dem_w])
            /\ forall i dem, nth_error demandes i = Some dem ->
                 exists st, nth_error (fils s) i = Some (fil_stade d0 dem st)
                            /\ gagnant st = Nat.eqb i w)).

(* ================================================================== *)
(** ** src/app.py: the remaining functions *)
(* ================================================================== *)

(** *** The procedure calls of a run

    The stored procedures are not part of app.py.  [suivre] runs a page as
    [run] does, for any behaviour [sem] of the procedures, and records the
    EXEC statements the page sends, in order. *)
Definition Semantique : Type := Procedure -> list Valeur -> DB -> Erreur + DB.

Definition executer_avec (sem : Semantique) (p : Procedure) (args : list Valeur)
    (panne : bool) (d : DB) : option Exception * DB :=
  if panne then (Some Panne, d)
  else match sem p args d with
       | inl e => (Some (ErreurSQL e), d)
       | inr d' => (None, d')
       end.

Fixpoint suivre {A : Type} (sem : Semantique) (p : Prog A) (pannes : list bool)
    (d : DB) (e : list Message) : Bilan A * list (Procedure * list Valeur) :=
  match p with
  | Ret a => (mk_Bilan (Termine a) d pannes e, [])
  | Rerun => (mk_Bilan Relance d pannes e, [])
  | Afficher m k => suivre sem k pannes d (e ++ [m])
  | ReadSql q k => suivre sem (k (lire q (hd false pannes) d)) (tl pannes) d e
  | Execute p args k =>
      (fst (suivre sem (k (fst (executer_avec sem p args (hd false pannes) d)))
              (tl pannes) (snd (executer_avec sem p args (hd false pannes) d)) e),
       (p, args)
       :: snd (suivre sem (k (fst (executer_avec sem p args (hd false pannes) d)))
                 (tl pannes) (snd (executer_avec sem p args (hd false pannes) d)) e))
  end.

(** *** Authentication *)

(** [authenticate_user]: SELECT UserID, Nom, Prenom, Email, Role, Actif FROM
    Utilisateurs WHERE Email = ? AND MotDePasse = ? AND Actif = 1.  The
    password is compared as given (no hash).  [egal] is the equality of
    the collation of the two columns, which the database defines. *)
Definition q_authenticate (egal : str -> str -> bool) (email password : str)
    (d : DB) : list User :=
  map session
      (filter (fun u => egal (u_Email u) email && egal (u_MotDePasse u) password
                        && u_Actif u)
              (Utilisateurs d)).

Definition authenticate_user (egal : str -> str -> bool) (email password : str)
  : Prog (option User) :=
  result <- execute_query (q_authenticate egal email password) ;;
  Ret (match result with
       | row :: _ => Some row
       | [] => None
       end).

(** What [login_page] does with a run of its form. *)
Inductive IssueLogin :=
| Connecte (user : User)  (* st.session_state.user = user; "Connexion réussie!"; st.rerun() *)
| Incorrect               (* "Email ou mot de passe incorrect" *)
| ChampsVides             (* "Veuillez remplir tous les champs" *)
| Attente.                (* the form is not submitted *)

(** [login_page]; the outcome is returned, the session being assigned by
    the caller from [Connecte]. *)
Definition login_page (egal : str -> str -> bool) (email password : str)
    (submit : bool) : Prog IssueLogin :=
  if submit then
    if negb (str_vide email) && negb (str_vide password) then
      user <- authenticate_user egal email password ;;
      match user with
      | Some u => Ret (Connecte u)
      | None => Ret Incorrect
      end
    else Ret ChampsVides
  else Ret Attente.

(** *** Dashboard *)

(** CAST(GETDATE() AS time). *)
Definition heure_courante (d : DB) : time :=
  mk_time (Z.to_nat ((horloge d mod 1440) / 60))
          (Z.to_nat ((horloge d mod 1440) mod 60)).

Definition validee (r : Reservation) : bool := Statut_eqb (r_Statut r) Validee.

(** SELECT COUNT( * ) as count FROM Reservations WHERE DateReservation = ?
    AND Statut = 'Validee'. *)
Definition q_reservations_today (today : Z) (d : DB) : list Z :=
  [Z.of_nat (length (filter (fun r => (r_DateReservation r =? today) && validee r)
                            (Reservations d)))].

(** ... WHERE DateReservation BETWEEN ? AND ? AND Statut = 'Validee', with
    [today] and [today + timedelta(days=7)]. *)
Definition q_reservations_week (today : Z) (d : DB) : list Z :=
  [Z.of_nat (length (filter (fun r => (today <=? r_DateReservation r)
                                      && (r_DateReservation r <=? today + 7)
                                      && validee r)
                            (Reservations d)))].

(** SELECT COUNT(DISTINCT SalleID) ... WHERE DateReservation = ? AND Statut =
    'Validee' AND CAST(GETDATE() AS time) BETWEEN HeureDebut AND HeureFin. *)
Definition q_salles_occupees (today : Z) (d : DB) : list Z :=
  [Z.of_nat
     (length
        (nodup Z.eq_dec
           (map r_SalleID
              (filter (fun r => (r_DateReservation r =? today) && validee r
                                && time_leb (r_HeureDebut r) (heure_courante d)
                                && time_leb (heure_courante d) (r_HeureFin r))
                      (Reservations d)))))].

(** DateReservation >= DATEADD(day, -30, GETDATE()): the date, at midnight,
    against the clock thirty days back; there is no upper bound, so every
    later date, future ones included, passes. *)
Definition trente_jours (d : DB) (r : Reservation) : bool :=
  horloge d - 30 * 1440 <=? r_DateReservation r * 1440.

(** SELECT Statut, COUNT( * ) as Nombre FROM Reservations WHERE ... GROUP BY
    Statut: one row for each status that occurs. *)
Definition q_reservations_stats (d : DB) : list (Statut * Z) :=
  flat_map
    (fun s =>
       match filter (fun r => Statut_eqb (r_Statut r) s)
                    (filter (trente_jours d) (Reservations d)) with
       | [] => []
       | groupe => [(s, Z.of_nat (length groupe))]
       end)
    [EnAttente; Validee; Refusee; Annulee].

Definition groupe_eq_dec (a b : Z * str) : {a = b} + {a <> b}.
Proof. decide equality; [apply (list_eq_dec N.eq_dec) | apply Z.eq_dec]. Defined.

(** Reservations joined with Salles, WHERE r.Statut = 'Validee' AND
    r.DateReservation >= DATEADD(day, -30, GETDATE()): the grouping columns
    (s.SalleID, s.NomSalle) of each joined row. *)
Definition lignes_salles_stats (d : DB) : list (Z * str) :=
  flat_map
    (fun r => map (fun s => (s_SalleID s, s_NomSalle s))
                  (filter (fun s => r_SalleID r =? s_SalleID s) (Salles d)))
    (filter (fun r => validee r && trente_jours d r) (Reservations d)).

(** SELECT TOP 5 s.NomSalle, COUNT( * ) as Reservations ... GROUP BY
    s.SalleID, s.NomSalle ORDER BY COUNT( * ) DESC. *)
Definition q_salles_stats (d : DB) : list (str * Z) :=
  firstn 5
    (order_by (fun a b => snd b <=? snd a)
       (map (fun g => (snd g,
                       Z.of_nat (count_occ groupe_eq_dec (lignes_salles_stats d) g)))
            (nodup groupe_eq_dec (lignes_salles_stats d)))).

(** What the dashboard shows: the four [st.metric] values and the data of
    the two bar charts ([None] when the chart is not drawn). *)
Record Tableau := mk_Tableau {
  reservations_today : Z;
  reservations_week : Z;
  salles_occupees : Z;
  total_salles : Z;
  reservations_stats : option (list (Statut * Z));
  salles_stats : option (list (str * Z)) }.

(** [df.iloc[0]['count'] if not df.empty else 0]. *)
Definition premier_count (df : list Z) : Z :=
  match df with
  | count :: _ => count
  | [] => 0
  end.

(** [st.bar_chart(df.set_index(...))] if the DataFrame is not empty. *)
Definition graphique {R : Type} (df : list R) : option (list R) :=
  if df_empty df then None else Some df.

(** [tableau_bord_page]; [today] is [date.today()]. *)
Definition tableau_bord_page (today : Z) : Prog Tableau :=
  df_today <- execute_query (q_reservations_today today) ;;
  df_week <- execute_query (q_reservations_week today) ;;
  df_occupees <- execute_query (q_salles_occupees today) ;;
  salles <- get_salles ;;
  df_stats <- execute_query q_reservations_stats ;;
  df_salles <- execute_query q_salles_stats ;;
  Ret (mk_Tableau (premier_count df_today) (premier_count df_week)
         (premier_count df_occupees) (Z.of_nat (length salles))
         (graphique df_stats) (graphique df_salles)).

(** *** Navigation *)

(** [needle in hay] on strings. *)
Fixpoint prefixe (a b : str) : bool :=
  match a, b with
  | [], _ => true
  | _ :: _, [] => false
  | x :: a', y :: b' => (x =? y)%N && prefixe a' b'
  end.

Fixpoint contient (needle hay : str) : bool :=
  prefixe needle hay
  || match hay with
     | [] => false
     | _ :: t => contient needle t
     end.

(** "Nouvelle réservation", "Mes réservations" and the menu labels with
    their pictograms. *)
Definition Nouvelle_reservation : str :=
  lit "Nouvelle r" ++ [233%N] ++ lit "servation".
Definition Mes_reservations : str :=
  lit "Mes r" ++ [233%N] ++ lit "servations".
Definition menu_tableau : str := [128202%N; 32%N] ++ lit "Tableau de bord".
Definition menu_nouvelle : str := [128197%N; 32%N] ++ Nouvelle_reservation.
Definition menu_mes : str := [128203%N; 32%N] ++ Mes_reservations.
Definition menu_validation : str := [9989%N; 32%N] ++ lit "Validation".

(** [menu_options] of [main]. *)
Definition menu_options (user : User) : list str :=
  [menu_tableau; menu_nouvelle; menu_mes]
  ++ (if str_in (Role user) [lit "Manager"; lit "Admin"]
      then [menu_validation] else []).

(** The widgets the script reads in one run. *)
Record Entrees := mk_Entrees {
  x_email : str; x_password : str; x_connexion : bool;
  x_deconnexion : bool;
  x_choice : str;
  x_formulaire : Formulaire;
  x_statut_filter : option Statut;
  x_annuler : option Z;
  x_validation : option (Bouton * Z);
  x_commentaires : Z -> str }.

(** What a run of [main] has rendered. *)
Inductive Vue :=
| V_login (i : IssueLogin)
| V_deconnexion            (* del st.session_state.user; st.rerun() *)
| V_tableau (t : Tableau)
| V_page                   (* one of the three other pages ran to its end *)
| V_aucune.

(** [main]: [session] is [st.session_state.user] when present; the result
    gives the session after the run and what was rendered.  A page that
    stops at [st.rerun()] leaves the session as it is. *)
Definition main (egal : str -> str -> bool) (today : Z) (session : option User)
    (x : Entrees) : Prog (option User * Vue) :=
  match session with
  | None =>
      i <- login_page egal (x_email x) (x_password x) (x_connexion x) ;;
      Ret (match i with Connecte u => Some u | _ => None end, V_login i)
  | Some user =>
      if x_deconnexion x then Ret (None, V_deconnexion)
      else if contient (lit "Tableau de bord") (x_choice x) then
        t <- tableau_bord_page today ;; Ret (session, V_tableau t)
      else if contient Nouvelle_reservation (x_choice x) then
        reservation_page user (x_formulaire x) ;;; Ret (session, V_page)
      else if contient Mes_reservations (x_choice x) then
        mes_reservations_page user (x_statut_filter x) (x_annuler x) ;;;
        Ret (session, V_page)
      else if contient (lit "Validation") (x_choice x) then
        validation_page user (x_validation x) (x_commentaires x) ;;;
        Ret (session, V_page)
      else Ret (session, V_aucune)
  end.

(** *** Sample data for the remaining functions *)

Definition egal_exact : str -> str -> bool := str_eqb.

Definition entrees_exemple : Entrees :=
  mk_Entrees (lit "alice@entreprise.com") (lit "secret") true false
    menu_mes (demande (h 9 0) (h 10 0) (lit "Point hebdo")) None (Some 1)
    (Some (Valider, 1)) (fun _ => []).

(** A stored procedure that refuses every call. *)
Definition sem_refus : Semantique := fun _ _ _ => inl Conflict.

(** The EXEC statement behind each button of the validation page, for the
    reservation [id] and the text [c] of its comment area. *)
Definition appel_validation (user : User) (b : Bouton) (id : Z) (c : str)
  : Procedure * list Valeur :=
  match b with
  | Valider =>
      (sp_ValiderReservation,
       [VInt (UserID user); VInt id; if str_vide c then VNone else VStr c])
  | Refuser =>
      (sp_AnnulerReservation,
       [VInt (UserID user); VInt id; VStr (commentaire_refus c)])
  end.

(** The columns a row of [get_reservations_user] takes from
    [Reservations]. *)
Definition colonnes_user (l : LigneUser) : Z * str * Z * time * time * Statut :=
  (lu_ReservationID l, lu_ObjetReunion l, lu_DateReservation l,
   lu_HeureDebut l, lu_HeureFin l, lu_Statut l).

Definition colonnes_reservation_user (r : Reservation)
  : Z * str * Z * time * time * Statut :=
  (r_ReservationID r, r_ObjetReunion r, r_DateReservation r,
   r_HeureDebut r, r_HeureFin r, r_Statut r).

(** ORDER BY r.DateReservation DESC, r.HeureDebut DESC: a row may come
    before another. *)
Definition avant_user (a b : LigneUser) : Prop :=
  lu_DateReservation b < lu_DateReservation a
  \/ (lu_DateReservation a = lu_DateReservation b
      /\ time_leb (lu_HeureDebut b) (lu_HeureDebut a) = true).

(** The sum of the counts of a chart. *)
Definition somme {K : Type} (rows : list (K * Z)) : Z :=
  fold_right Z.add 0 (map snd rows).

(** *** The connection

    [execute_query] and [execute_procedure] call [init_connection()]
    before their [try] (lines 33 and 50).  When the connection cannot be
    opened, [pyodbc.connect] raises and no handler catches the exception:
    the script run ends on it at the first storage operation.
    [run_connexion ouverte] is [run] with that case added; [None] is the
    uncaught exception. *)
Fixpoint run_connexion {A : Type} (ouverte : bool) (p : Prog A)
    (pannes : list bool) (d : DB) (e : list Message) : option (Bilan A) :=
  match p with
  | Ret a => Some (mk_Bilan (Termine a) d pannes e)
  | Rerun => Some (mk_Bilan Relance d pannes e)
  | Afficher m k => run_connexion ouverte k pannes d (e ++ [m])
  | ReadSql q k =>
      if ouverte
      then run_connexion ouverte (k (lire q (hd false pannes) d)) (tl pannes) d e
      else None
  | Execute p args k =>
      if ouverte
      then run_connexion ouverte
             (k (fst (executer p args (hd false pannes) d))) (tl pannes)
             (snd (executer p args (hd false pannes) d)) e
      else None
  end.

(** [base_exemple] after Marc has refused reservation 1. *)
Definition base_refusee : DB :=
  base (run (validation_page (session marc) (Some (Refuser, 1)) (fun _ => []))
            [] base_exemple []).

(** Alice cancels her reservations 1 and 2 from "Mes réservations" while
    Marc presses "Valider" on reservation 1. *)
Definition sessions_annulations : list Fil :=
  [mk_Fil (mes_reservations_page (session alice) None (Some 1)) [];
   mk_Fil (validation_page (session marc) (Some (Valider, 1)) (fun _ => [])) [];
   mk_Fil (mes_reservations_page (session alice) None (Some 2)) []].

Definition plan_annulations : list Choix :=
  [Pas 0 false; Pas 1 false; Pas 2 false; Pas 0 false; Tic 5; Pas 1 false;
   Pas 2 false; Pas 0 false; Pas 1 false; Pas 2 false].

(* ================================================================== *)
(** * Theorems *)
(* ================================================================== *)

(** ** Basic facts *)

Lemma str_eqb_eq (a b : str) : str_eqb a b = true <-> a = b.
Proof.
  unfold str_eqb. destruct (list_eq_dec N.eq_dec a b); split; congruence.
Qed.

Lemma time_leb_ltb (a b : time) : time_leb a b = negb (time_ltb b a).
Proof.
  unfold time_leb, time_ltb.
  destruct (Nat.ltb_spec (hour a) (hour b)), (Nat.ltb_spec (hour b) (hour a)),
    (Nat.eqb_spec (hour a) (hour b)), (Nat.eqb_spec (hour b) (hour a)),
    (Nat.leb_spec (minute a) (minute b)), (Nat.ltb_spec (minute b) (minute a));
    simpl; try reflexivity; lia.
Qed.

Lemma run_bind {A B : Type} (p : Prog A) (f : A -> Prog B) pannes d e :
  run (bind p f) pannes d e =
  match issue (run p pannes d e) with
  | Termine a => run (f a) (pannes_restantes (run p pannes d e))
                     (base (run p pannes d e)) (ecran (run p pannes d e))
  | Relance => mk_Bilan Relance (base (run p pannes d e))
                 (pannes_restantes (run p pannes d e)) (ecran (run p pannes d e))
  end.
Proof.
  revert pannes d e.
  induction p as [a | | m k IH | R q k IH | pr args k IH]; intros pannes d e; simpl.
  - reflexivity.
  - reflexivity.
  - apply IH.
  - apply IH.
  - apply IH.
Qed.

(** The two semantics agree: a session run on its own is the succession of
    its operations. *)
Lemma run_pas_fil (f : Fil) (panne : bool) (pannes : list bool) (d : DB) :
  run (prog f)
      (match prog f with
       | ReadSql _ _ | Execute _ _ _ => panne :: pannes
       | _ => pannes
       end) d (affichage f)
  = run (prog (fst (pas_fil panne d f))) pannes (snd (pas_fil panne d f))
        (affichage (fst (pas_fil panne d f))).
Proof.
  unfold pas_fil. destruct f as [p e]. cbn [prog affichage].
  destruct p; reflexivity.
Qed.

Lemma run_execute_query {R : Type} (q : DB -> list R) pannes d e :
  run (execute_query q) pannes d e =
  if hd false pannes
  then mk_Bilan (Termine []) d (tl pannes) (e ++ [ErreurRequete])
  else mk_Bilan (Termine (q d)) d (tl pannes) e.
Proof.
  unfold execute_query. simpl. unfold lire.
  destruct (hd false pannes); reflexivity.
Qed.

Lemma run_execute_procedure p args pannes d e :
  run (execute_procedure p args) pannes d e =
  if hd false pannes
  then mk_Bilan (Termine false) d (tl pannes) (e ++ [ErreurProcedure Panne])
  else match exec_procedure p args d with
       | inl err => mk_Bilan (Termine false) d (tl pannes)
                      (e ++ [ErreurProcedure (ErreurSQL err)])
       | inr d' => mk_Bilan (Termine true) d' (tl pannes) e
       end.
Proof.
  unfold execute_procedure. simpl. unfold executer.
  destruct (hd false pannes); [reflexivity|].
  destruct (exec_procedure p args d); reflexivity.
Qed.

Lemma run_check_availability salle date debut fin pannes d e :
  run (check_availability salle date debut fin) pannes d e =
  if hd false pannes
  then mk_Bilan (Termine false) d (tl pannes) (e ++ [ErreurRequete])
  else mk_Bilan (Termine (fn_SalleDisponible d salle date debut fin)) d
         (tl pannes) e.
Proof.
  unfold check_availability. rewrite run_bind, run_execute_query.
  destruct (hd false pannes); reflexivity.
Qed.

(** The page up to the form: when both catalogues are loaded, a submitted
    form is handled by the [if submit:] block. *)
Lemma run_reservation_page_affiche user f pannes d e :
  formulaire_affiche pannes d -> submit f = true ->
  run (reservation_page user f) pannes d e
  = run (soumettre user f) (tl (tl pannes)) d e.
Proof.
  intros (H1 & H2 & H3 & H4) Hs. unfold reservation_page.
  rewrite run_bind. unfold get_salles. rewrite run_execute_query, H1.
  cbn [issue base pannes_restantes ecran].
  rewrite run_bind. unfold get_types_evenements. rewrite run_execute_query, H2.
  cbn [issue base pannes_restantes ecran].
  rewrite H3, H4, Hs. reflexivity.
Qed.

(** ** Access control of the validation page *)

(** C7: an actor whose role is neither Manager nor Admin gets "Accès non
    autorisé" (Forbidden) from the validation page, whatever button is
    aimed at, whether or not the reservation exists and whatever its
    status; the page stops before any storage call, so the role check
    precedes the existence check and the transition. *)
Theorem validation_page_role_d_abord (user : User) (clic : option (Bouton * Z))
    (commentaires : Z -> str) :
  Role user <> lit "Manager" -> Role user <> lit "Admin" ->
  validation_page user clic commentaires = st_error AccesNonAutorise
  /\ categorie AccesNonAutorise = Some Forbidden
  /\ forall pannes d e,
       run (validation_page user clic commentaires) pannes d e
       = mk_Bilan (Termine tt) d pannes (e ++ [AccesNonAutorise]).
Proof.
  intros Hm Ha.
  assert (Hr : str_in (Role user) [lit "Manager"; lit "Admin"] = false).
  { unfold str_in. simpl.
    destruct (str_eqb (Role user) (lit "Manager")) eqn:E1.
    - apply str_eqb_eq in E1. contradiction.
    - destruct (str_eqb (Role user) (lit "Admin")) eqn:E2.
      + apply str_eqb_eq in E2. contradiction.
      + reflexivity. }
  assert (Hp : validation_page user clic commentaires = st_error AccesNonAutorise).
  { unfold validation_page. rewrite Hr. reflexivity. }
  split; [exact Hp|]. split; [reflexivity|].
  intros pannes d e. rewrite Hp. reflexivity.
Qed.

Lemma validation_page_role_d_abord_temoin :
  validation_page (session alice) (Some (Valider, 7)) (fun _ => [])
  = st_error AccesNonAutorise
  /\ categorie AccesNonAutorise = Some Forbidden
  /\ forall pannes d e,
       run (validation_page (session alice) (Some (Valider, 7)) (fun _ => []))
           pannes d e
       = mk_Bilan (Termine tt) d pannes (e ++ [AccesNonAutorise]).
Proof.
  apply (validation_page_role_d_abord (session alice) (Some (Valider, 7))
           (fun _ => [])); vm_compute; discriminate.
Defined.

(** ** Validation of the reservation form *)

(** C8: a submitted form whose subject is empty, or whose end time is not
    strictly after its start time, is refused with an InvalidInput message
    and the database is left as it was; the subject is tested first, so an
    empty subject gives the subject message whatever the interval. *)
Theorem reservation_page_validation (user : User) (f : Formulaire)
    (pannes : list bool) (d : DB) (e : list Message) :
  formulaire_affiche pannes d -> submit f = true ->
  objet_reunion f = [] \/ time_ltb (heure_debut f) (heure_fin f) = false ->
  exists m,
    run (reservation_page user f) pannes d e
    = mk_Bilan (Termine tt) d (tl (tl pannes)) (e ++ [m])
    /\ categorie m = Some InvalidInput
    /\ (objet_reunion f = [] -> m = ObjetObligatoire)
    /\ (str_vide (strip (objet_reunion f)) = false -> m = HeureFinInvalide).
Proof.
  intros Hl Hs Hinv.
  rewrite (run_reservation_page_affiche user f pannes d e Hl Hs).
  unfold soumettre.
  destruct (str_vide (strip (objet_reunion f))) eqn:Ev.
  - exists ObjetObligatoire. repeat split; try reflexivity. discriminate.
  - destruct Hinv as [Ho | Ht].
    + rewrite Ho in Ev. discriminate.
    + rewrite time_leb_ltb, Ht. simpl.
      exists HeureFinInvalide. repeat split; try reflexivity.
      intros Ho. rewrite Ho in Ev. discriminate.
Qed.

Lemma reservation_page_validation_temoin :
  exists m,
    run (reservation_page (session alice) (demande (h 10 0) (h 9 0) []))
        [] base_vide []
    = mk_Bilan (Termine tt) base_vide [] ([] ++ [m])
    /\ categorie m = Some InvalidInput
    /\ (objet_reunion (demande (h 10 0) (h 9 0) []) = [] -> m = ObjetObligatoire)
    /\ (str_vide (strip (objet_reunion (demande (h 10 0) (h 9 0) []))) = false
        -> m = HeureFinInvalide).
Proof.
  apply (reservation_page_validation (session alice)
           (demande (h 10 0) (h 9 0) []) [] base_vide []).
  - repeat split; reflexivity.
  - reflexivity.
  - left. reflexivity.
Defined.

(** ** Symbolic execution of the reservation page *)

Lemma run_reserver user f pannes d e :
  run (reserver user f) pannes d e =
  if hd false pannes
  then mk_Bilan (Termine tt) d (tl pannes) (e ++ [ErreurProcedure Panne])
  else match CreateIfAvailable (UserID user) (salle_selected f) (type_selected f)
               (strip (objet_reunion f)) (date_reservation f)
               (heure_debut f) (heure_fin f) d with
       | inl err => mk_Bilan (Termine tt) d (tl pannes)
                      (e ++ [ErreurProcedure (ErreurSQL err)])
       | inr d' => mk_Bilan Relance d' (tl pannes) (e ++ [ReservationCreee])
       end.
Proof.
  unfold reserver. rewrite run_bind, run_execute_procedure.
  destruct (hd false pannes); [reflexivity|].
  cbn [exec_procedure].
  destruct (CreateIfAvailable _ _ _ _ _ _ _ d); reflexivity.
Qed.

Lemma run_soumettre user f pannes d e :
  run (soumettre user f) pannes d e =
  if str_vide (strip (objet_reunion f))
  then mk_Bilan (Termine tt) d pannes (e ++ [ObjetObligatoire])
  else if time_leb (heure_fin f) (heure_debut f)
  then mk_Bilan (Termine tt) d pannes (e ++ [HeureFinInvalide])
  else if hd false pannes
  then mk_Bilan (Termine tt) d (tl pannes)
         ((e ++ [ErreurRequete]) ++ [SalleNonDisponible])
  else if fn_SalleDisponible d (salle_selected f) (date_reservation f)
            (heure_debut f) (heure_fin f)
  then run (reserver user f) (tl pannes) d e
  else mk_Bilan (Termine tt) d (tl pannes) (e ++ [SalleNonDisponible]).
Proof.
  unfold soumettre.
  destruct (str_vide (strip (objet_reunion f))); [reflexivity|].
  destruct (time_leb (heure_fin f) (heure_debut f)); [reflexivity|].
  rewrite run_bind, run_check_availability.
  destruct (hd false pannes); [reflexivity|].
  cbn [issue base pannes_restantes ecran].
  destruct (fn_SalleDisponible d _ _ _ _); reflexivity.
Qed.

Lemma run_reservation_page user f pannes d e :
  run (reservation_page user f) pannes d e =
  if hd false pannes
  then mk_Bilan (Termine tt) d (tl (tl pannes))
         ((if hd false (tl pannes)
           then (e ++ [ErreurRequete]) ++ [ErreurRequete]
           else e ++ [ErreurRequete]) ++ [ImpossibleCharger])
  else if hd false (tl pannes)
  then mk_Bilan (Termine tt) d (tl (tl pannes))
         ((e ++ [ErreurRequete]) ++ [ImpossibleCharger])
  else if df_empty (q_salles d) || df_empty (q_types_evenements d)
  then mk_Bilan (Termine tt) d (tl (tl pannes)) (e ++ [ImpossibleCharger])
  else if submit f
  then run (soumettre user f) (tl (tl pannes)) d e
  else mk_Bilan (Termine tt) d (tl (tl pannes)) e.
Proof.
  unfold reservation_page, get_salles, get_types_evenements.
  rewrite run_bind, run_execute_query.
  destruct (hd false pannes); cbn [issue base pannes_restantes ecran];
    rewrite run_bind, run_execute_query;
    destruct (hd false (tl pannes)); cbn [issue base pannes_restantes ecran];
    try reflexivity.
  - cbn [df_empty]. rewrite orb_true_r. reflexivity.
  - destruct (df_empty (q_salles d) || df_empty (q_types_evenements d));
      [reflexivity|]. destruct (submit f); reflexivity.
Qed.

(** What a successful [sp_ReserverSalle] has checked and written. *)
Lemma CreateIfAvailable_inr user salle type objet date debut fin d d' :
  CreateIfAvailable user salle type objet date debut fin d = inr d' ->
  d' = avec_Reservations d
         (Reservations d ++
          [mk_Reservation (prochain_id (Reservations d)) user salle type objet
             date debut fin EnAttente (horloge d) None None])
  /\ fn_SalleDisponible d salle date debut fin = true
  /\ IsValid d date debut fin = true
  /\ exists t, find (fun t => t_TypeID t =? type) (TypesEvenements d) = Some t
               /\ duree_dans_bornes t debut fin = true.
Proof.
  unfold CreateIfAvailable.
  destruct (find (fun s => s_SalleID s =? salle) (Salles d)); [|discriminate].
  destruct (find (fun t => t_TypeID t =? type) (TypesEvenements d)) as [t|];
    [|discriminate].
  destruct (IsValid d date debut fin); [|discriminate].
  destruct (duree_dans_bornes t debut fin) eqn:Ed; [|discriminate].
  destruct (fn_SalleDisponible d salle date debut fin); [|discriminate].
  cbn [negb]. intros H. injection H as <-.
  repeat split. exists t. split; [reflexivity | exact Ed].
Qed.

(** ** The availability check and a storage failure *)

Lemma occupe_spec salle date debut fin r :
  occupe salle date debut fin r = true <->
  actif (r_Statut r) = true /\ r_SalleID r = salle /\ r_DateReservation r = date
  /\ time_ltb (r_HeureDebut r) fin = true /\ time_ltb debut (r_HeureFin r) = true.
Proof.
  unfold occupe, Overlaps. rewrite !andb_true_iff, !Z.eqb_eq. tauto.
Qed.

(** C5 as stated fails: when the lookup raises, [check_availability]
    returns the boolean [False] although no reservation exists at all. *)
Lemma check_availability_panne_rend_faux :
  run (check_availability 101 19876 (h 9 0) (h 10 0)) [true] base_vide []
  = mk_Bilan (Termine false) base_vide [] [ErreurRequete]
  /\ Reservations base_vide = [].
Proof. split; reflexivity. Qed.

Lemma run_connexion_ouverte {A : Type} (p : Prog A) pannes d e :
  run_connexion true p pannes d e = Some (run p pannes d e).
Proof.
  revert pannes d e.
  induction p as [a | | m k IH | R q k IH | pr args k IH]; intros pannes d e;
    cbn [run_connexion run]; try reflexivity; apply IH.
Qed.

(** C5, amended: [check_availability] gives an error only when the
    connection cannot be opened (the exception of [init_connection]
    propagates).  On an open connection, when the lookup query raises it
    returns [False], the value it returns for a busy room, after the
    error message of [execute_query]; when the query is answered it
    returns [False] exactly when some active reservation of the room on
    the date overlaps the interval.  Its caller, the submitted form of
    [reservation_page], does not distinguish the two: in both cases it
    shows "La salle n'est pas disponible pour ce créneau" and stops, the
    lookup being its only storage operation. *)
Theorem check_availability_resultat (user : User) (f : Formulaire)
    (pannes : list bool) (d : DB) (e : list Message) :
  run_connexion false
    (check_availability (salle_selected f) (date_reservation f)
       (heure_debut f) (heure_fin f)) pannes d e = None
  /\ run_connexion true
       (check_availability (salle_selected f) (date_reservation f)
          (heure_debut f) (heure_fin f)) pannes d e
     = Some (run (check_availability (salle_selected f) (date_reservation f)
                    (heure_debut f) (heure_fin f)) pannes d e)
  /\ (hd false pannes = true ->
      run (check_availability (salle_selected f) (date_reservation f)
             (heure_debut f) (heure_fin f)) pannes d e
      = mk_Bilan (Termine false) d (tl pannes) (e ++ [ErreurRequete]))
  /\ (hd false pannes = false ->
      exists b,
        run (check_availability (salle_selected f) (date_reservation f)
               (heure_debut f) (heure_fin f)) pannes d e
        = mk_Bilan (Termine b) d (tl pannes) e
        /\ (b = false <->
            exists r, In r (Reservations d)
                      /\ actif (r_Statut r) = true
                      /\ r_SalleID r = salle_selected f
                      /\ r_DateReservation r = date_reservation f
                      /\ time_ltb (r_HeureDebut r) (heure_fin f) = true
                      /\ time_ltb (heure_debut f) (r_HeureFin r) = true))
  /\ (str_vide (strip (objet_reunion f)) = false ->
      time_ltb (heure_debut f) (heure_fin f) = true ->
      (hd false pannes = true ->
       run (soumettre user f) pannes d e
       = mk_Bilan (Termine tt) d (tl pannes)
           ((e ++ [ErreurRequete]) ++ [SalleNonDisponible]))
      /\ (hd false pannes = false ->
          (exists r, In r (Reservations d)
                     /\ actif (r_Statut r) = true
                     /\ r_SalleID r = salle_selected f
                     /\ r_DateReservation r = date_reservation f
                     /\ time_ltb (r_HeureDebut r) (heure_fin f) = true
                     /\ time_ltb (heure_debut f) (r_HeureFin r) = true) ->
          run (soumettre user f) pannes d e
          = mk_Bilan (Termine tt) d (tl pannes) (e ++ [SalleNonDisponible]))).
Proof.
  assert (Hocc : fn_SalleDisponible d (salle_selected f) (date_reservation f)
                   (heure_debut f) (heure_fin f) = false
                 <-> exists r, In r (Reservations d)
                      /\ actif (r_Statut r) = true
                      /\ r_SalleID r = salle_selected f
                      /\ r_DateReservation r = date_reservation f
                      /\ time_ltb (r_HeureDebut r) (heure_fin f) = true
                      /\ time_ltb (heure_debut f) (r_HeureFin r) = true).
  { unfold fn_SalleDisponible. rewrite negb_false_iff, existsb_exists.
    split; intros (r & Hin & Hr); exists r; split; try exact Hin;
      apply occupe_spec; exact Hr. }
  split; [reflexivity|]. split; [apply run_connexion_ouverte|].
  rewrite run_check_availability.
  split; [intros ->; reflexivity|]. split.
  - intros ->. eexists. split; [reflexivity | exact Hocc].
  - intros Hobj Hint. rewrite run_soumettre.
    rewrite Hobj, time_leb_ltb, Hint. cbn [negb].
    split; [intros ->; reflexivity|].
    intros -> Hr. apply Hocc in Hr. rewrite Hr. reflexivity.
Qed.

Lemma check_availability_resultat_temoin :
  run (check_availability 101 19876 (h 9 30) (h 10 30)) [true] base_vide []
  = mk_Bilan (Termine false) base_vide [] [ErreurRequete]
  /\ run (check_availability 101 19876 (h 9 30) (h 10 30)) [] base_exemple []
     = mk_Bilan (Termine false) base_exemple [] []
  /\ run (check_availability 101 19876 (h 9 30) (h 10 30)) [] base_vide []
     = mk_Bilan (Termine true) base_vide [] []
  /\ run (soumettre (session alice) (demande (h 9 30) (h 10 30) (lit "Point")))
         [true] base_vide []
     = mk_Bilan (Termine tt) base_vide [] [ErreurRequete; SalleNonDisponible]
  /\ run (soumettre (session alice) (demande (h 9 30) (h 10 30) (lit "Point")))
         [] base_exemple []
     = mk_Bilan (Termine tt) base_exemple [] [SalleNonDisponible].
Proof.
  pose (f := demande (h 9 30) (h 10 30) (lit "Point")).
  assert (Hr : exists r, In r (Reservations base_exemple)
                 /\ actif (r_Statut r) = true
                 /\ r_SalleID r = salle_selected f
                 /\ r_DateReservation r = date_reservation f
                 /\ time_ltb (r_HeureDebut r) (heure_fin f) = true
                 /\ time_ltb (heure_debut f) (r_HeureFin r) = true).
  { eexists. split; [left; reflexivity|]. repeat split. }
  destruct (check_availability_resultat (session alice) f [true] base_vide [])
    as (_ & _ & H1 & _ & H4).
  destruct (check_availability_resultat (session alice) f [] base_exemple [])
    as (_ & _ & _ & H2 & H5).
  destruct (check_availability_resultat (session alice) f [] base_vide [])
    as (_ & _ & _ & H3 & _).
  split; [exact (H1 eq_refl)|]. split.
  { destruct (H2 eq_refl) as (b & Hb & Hiff).
    rewrite (proj2 Hiff Hr) in Hb. exact Hb. }
  split.
  { destruct (H3 eq_refl) as (b & Hb & Hiff).
    destruct b; [exact Hb|].
    destruct (proj1 Hiff eq_refl) as (r & [] & _). }
  split.
  - exact (proj1 (H4 eq_refl eq_refl) eq_refl).
  - exact (proj2 (H5 eq_refl eq_refl) eq_refl Hr).
Defined.

(** ** Normalisation of the subject *)

Lemma lstrip_spec (s : str) :
  exists pre, s = pre ++ lstrip s /\ forallb isspace pre = true
              /\ debute_sans_blanc (lstrip s).
Proof.
  induction s as [|c t IH]; simpl.
  - exists []. repeat split.
  - destruct (isspace c) eqn:Ec.
    + destruct IH as (pre & Heq & Hb & Hd).
      exists (c :: pre). simpl. rewrite Ec, Hb. repeat split; [|exact Hd].
      f_equal. exact Heq.
    + exists []. simpl. repeat split. exact Ec.
Qed.

Lemma lstrip_blanc (s : str) : forallb isspace s = true -> lstrip s = [].
Proof.
  induction s as [|c t IH]; simpl; [reflexivity|].
  intros H. apply andb_true_iff in H as [Hc Ht]. rewrite Hc. apply IH, Ht.
Qed.

Lemma strip_blanc (s : str) : forallb isspace s = true -> strip s = [].
Proof.
  intros H. unfold strip, rstrip. rewrite (lstrip_blanc s H). reflexivity.
Qed.

Lemma forallb_rev {A : Type} (p : A -> bool) (l : list A) :
  forallb p (rev l) = forallb p l.
Proof.
  induction l as [|x l IH]; simpl; [reflexivity|].
  rewrite forallb_app, IH. simpl. rewrite andb_true_r. apply andb_comm.
Qed.

(** [strip] removes a run of whitespace at each end and nothing else. *)
Lemma strip_spec (s : str) :
  exists pre post,
    s = pre ++ strip s ++ post
    /\ forallb isspace pre = true /\ forallb isspace post = true
    /\ debute_sans_blanc (strip s) /\ debute_sans_blanc (rev (strip s)).
Proof.
  destruct (lstrip_spec s) as (pre & Hs & Hpre & Hd).
  destruct (lstrip_spec (rev (lstrip s))) as (pre2 & Hr & Hpre2 & Hd2).
  assert (Ht : lstrip s = strip s ++ rev pre2).
  { unfold strip, rstrip.
    rewrite <- (rev_involutive (lstrip s)) at 1.
    rewrite Hr at 1. rewrite rev_app_distr. reflexivity. }
  exists pre, (rev pre2). repeat split.
  - rewrite <- Ht. exact Hs.
  - exact Hpre.
  - rewrite forallb_rev. exact Hpre2.
  - rewrite Ht in Hd. destruct (strip s); simpl in *; [exact I | exact Hd].
  - unfold strip, rstrip. rewrite rev_involutive. exact Hd2.
Qed.

(** C10: a subject made only of whitespace is handled as the empty subject
    is, by the message that the subject is mandatory; and when the page
    reports the reservation as created, the store has received one new
    row whose subject is the submitted text without its leading and
    trailing whitespace. *)
Theorem reservation_page_objet_normalise (user : User) (f : Formulaire)
    (pannes : list bool) (d : DB) :
  (forallb isspace (objet_reunion f) = true ->
   soumettre user f = st_error ObjetObligatoire
   /\ soumettre user (avec_objet f []) = st_error ObjetObligatoire
   /\ forall e, run (reservation_page user f) pannes d e
                = run (reservation_page user (avec_objet f [])) pannes d e)
  /\ (In ReservationCreee (ecran (run (reservation_page user f) pannes d [])) ->
      exists r pre post,
        Reservations (base (run (reservation_page user f) pannes d []))
        = Reservations d ++ [r]
        /\ r_ObjetReunion r = strip (objet_reunion f)
        /\ objet_reunion f = pre ++ r_ObjetReunion r ++ post
        /\ forallb isspace pre = true /\ forallb isspace post = true
        /\ r_ObjetReunion r <> []
        /\ debute_sans_blanc (r_ObjetReunion r)
        /\ debute_sans_blanc (rev (r_ObjetReunion r))).
Proof.
  split.
  - intros Hb.
    assert (H1 : soumettre user f = st_error ObjetObligatoire).
    { unfold soumettre. rewrite (strip_blanc _ Hb). reflexivity. }
    assert (H2 : soumettre user (avec_objet f []) = st_error ObjetObligatoire)
      by reflexivity.
    split; [exact H1|]. split; [exact H2|].
    intros e. rewrite !run_reservation_page, H1, H2. reflexivity.
  - rewrite run_reservation_page.
    destruct (hd false pannes).
    { destruct (hd false (tl pannes)); simpl; intuition discriminate. }
    destruct (hd false (tl pannes)); [simpl; intuition discriminate|].
    destruct (df_empty (q_salles d) || df_empty (q_types_evenements d));
      [simpl; intuition discriminate|].
    destruct (submit f); [|simpl; intuition discriminate].
    rewrite run_soumettre.
    destruct (str_vide (strip (objet_reunion f))) eqn:Ev;
      [simpl; intuition discriminate|].
    destruct (time_leb (heure_fin f) (heure_debut f));
      [simpl; intuition discriminate|].
    destruct (hd false (tl (tl pannes))); [simpl; intuition discriminate|].
    destruct (fn_SalleDisponible d _ _ _ _); [|simpl; intuition discriminate].
    rewrite run_reserver.
    destruct (hd false (tl (tl (tl pannes)))); [simpl; intuition discriminate|].
    destruct (CreateIfAvailable _ _ _ _ _ _ _ d) as [err | d'] eqn:Ec;
      [simpl; intuition discriminate|].
    intros _. apply CreateIfAvailable_inr in Ec as (-> & _).
    destruct (strip_spec (objet_reunion f)) as (pre & post & Hs & Hp & Hq & Hd1 & Hd2).
    eexists. exists pre, post. cbn [base Reservations avec_Reservations].
    split; [reflexivity|]. cbn [r_ObjetReunion].
    repeat split; try assumption.
    intros Hn. rewrite Hn in Ev. discriminate.
Qed.

Lemma reservation_page_objet_normalise_temoin :
  soumettre (session alice) (demande (h 9 0) (h 10 0) (lit "   "))
  = st_error ObjetObligatoire
  /\ exists r,
       Reservations
         (base (run (reservation_page (session alice)
                       (demande (h 9 0) (h 10 0) (lit "  Point hebdo ")))
                    [] base_vide []))
       = Reservations base_vide ++ [r]
       /\ r_ObjetReunion r = lit "Point hebdo".
Proof.
  destruct (reservation_page_objet_normalise (session alice)
              (demande (h 9 0) (h 10 0) (lit "   ")) [] base_vide) as [H1 _].
  destruct (reservation_page_objet_normalise (session alice)
              (demande (h 9 0) (h 10 0) (lit "  Point hebdo ")) [] base_vide)
    as [_ H2].
  split.
  - apply H1. reflexivity.
  - destruct H2 as (r & pre & post & Hr & Ho & _).
    + vm_compute. left. reflexivity.
    + exists r. split; [exact Hr|]. rewrite Ho. reflexivity.
Defined.

(** ** The list of pending reservations *)

Section OrderBy.
Context {A : Type} (key : A -> Z).

Let le (a b : A) : bool := key a <=? key b.

Lemma insere_perm (cmp : A -> A -> bool) (x : A) (l : list A) :
  Permutation (insere cmp x l) (x :: l).
Proof.
  induction l as [|y t IH]; simpl.
  - apply Permutation_refl.
  - destruct (cmp x y).
    + apply Permutation_refl.
    + apply perm_trans with (y :: x :: t).
      * apply perm_skip, IH.
      * apply perm_swap.
Qed.

Lemma order_by_perm (cmp : A -> A -> bool) (l : list A) :
  Permutation (order_by cmp l) l.
Proof.
  induction l as [|x t IH]; simpl.
  - apply perm_nil.
  - apply perm_trans with (x :: order_by cmp t).
    + apply insere_perm.
    + apply perm_skip, IH.
Qed.

Lemma insere_trie (x : A) (l : list A) :
  StronglySorted (fun a b => key a <= key b) l ->
  StronglySorted (fun a b => key a <= key b) (insere le x l).
Proof.
  induction l as [|y t IH]; intros Hs; simpl.
  - constructor; constructor.
  - apply StronglySorted_inv in Hs as [Ht Hy].
    unfold le at 1. destruct (Z.leb_spec (key x) (key y)) as [Hxy | Hxy].
    + constructor.
      * constructor; assumption.
      * constructor; [exact Hxy|].
        rewrite Forall_forall in Hy |- *. intros z Hz.
        specialize (Hy z Hz). lia.
    + constructor.
      * apply IH, Ht.
      * rewrite Forall_forall in Hy |- *. intros z Hz.
        apply (Permutation_in z (insere_perm le x t)) in Hz.
        destruct Hz as [<- | Hz]; [lia | apply Hy, Hz].
Qed.

Lemma order_by_trie (l : list A) :
  StronglySorted (fun a b => key a <= key b) (order_by le l).
Proof.
  induction l as [|x t IH]; simpl.
  - constructor.
  - apply insere_trie, IH.
Qed.
End OrderBy.

Lemma longueur_un {A : Type} (l : list A) :
  Nat.eqb (length l) 1 = true -> exists x, l = [x].
Proof.
  destruct l as [|x [|y t]]; simpl; try discriminate.
  intros _. exists x. reflexivity.
Qed.

(** Under the foreign keys every reservation joins with exactly one user,
    one room and one type, so the join keeps the rows one for one. *)
Lemma jointure_pending (d : DB) (l : list Reservation) :
  cles_etrangeres d = true ->
  (forall r, In r l -> In r (Reservations d)) ->
  map colonnes_pending
    (flat_map (fun r =>
       flat_map (fun u =>
         flat_map (fun s =>
           flat_map (fun te => [ligne_pending r u s te])
             (filter (fun te => r_TypeID r =? t_TypeID te) (TypesEvenements d)))
           (filter (fun s => r_SalleID r =? s_SalleID s) (Salles d)))
         (filter (fun u => r_UserID r =? u_UserID u) (Utilisateurs d))) l)
  = map colonnes_reservation l.
Proof.
  intros Hk. unfold cles_etrangeres in Hk. rewrite forallb_forall in Hk.
  induction l as [|r t IH]; intros Hin; [reflexivity|].
  cbn [flat_map]. rewrite map_app, IH by (intros x Hx; apply Hin; right; exact Hx).
  specialize (Hk r (Hin r (or_introl eq_refl))).
  apply andb_true_iff in Hk as [Hk Ht]. apply andb_true_iff in Hk as [Hu Hs].
  apply longueur_un in Hu as [u ->]. apply longueur_un in Hs as [s ->].
  apply longueur_un in Ht as [te ->]. reflexivity.
Qed.

Lemma q_reservations_pending_colonnes (d : DB) :
  cles_etrangeres d = true ->
  Permutation (map colonnes_pending (q_reservations_pending d))
    (map colonnes_reservation
       (filter (fun r => Statut_eqb (r_Statut r) EnAttente) (Reservations d))).
Proof.
  intros Hk. unfold q_reservations_pending.
  eapply perm_trans.
  - apply Permutation_map, order_by_perm.
  - rewrite (jointure_pending d _ Hk).
    + apply Permutation_refl.
    + intros r Hr. apply filter_In in Hr. apply Hr.
Qed.

(** C9: when the query is answered, [get_reservations_pending] returns the
    reservations whose status is 'EnAttente', each once, in ascending
    order of [DateCreation] (oldest first); the foreign keys of the
    schema make the three joins keep every such row. *)
Theorem get_reservations_pending_spec (pannes : list bool) (d : DB)
    (e : list Message) :
  cles_etrangeres d = true -> hd false pannes = false ->
  exists rows,
    run get_reservations_pending pannes d e
    = mk_Bilan (Termine rows) d (tl pannes) e
    /\ Permutation (map colonnes_pending rows)
         (map colonnes_reservation
            (filter (fun r => Statut_eqb (r_Statut r) EnAttente)
                    (Reservations d)))
    /\ StronglySorted (fun a b => lp_DateCreation a <= lp_DateCreation b) rows.
Proof.
  intros Hk Hp. exists (q_reservations_pending d).
  unfold get_reservations_pending. rewrite run_execute_query, Hp.
  split; [reflexivity|]. split.
  - apply q_reservations_pending_colonnes, Hk.
  - apply (order_by_trie lp_DateCreation).
Qed.

Lemma get_reservations_pending_spec_temoin :
  exists rows,
    run get_reservations_pending [] base_exemple []
    = mk_Bilan (Termine rows) base_exemple (tl []) []
    /\ Permutation (map colonnes_pending rows)
         (map colonnes_reservation
            (filter (fun r => Statut_eqb (r_Statut r) EnAttente)
                    (Reservations base_exemple)))
    /\ StronglySorted (fun a b => lp_DateCreation a <= lp_DateCreation b) rows.
Proof.
  apply (get_reservations_pending_spec [] base_exemple []); reflexivity.
Defined.

(** ** The "Refuser" button *)







(** ** Duration bounds of the event type *)

Lemma CreateIfAvailable_hors_bornes user salle type objet date debut fin d t :
  find (fun t => t_TypeID t =? type) (TypesEvenements d) = Some t ->
  duree_dans_bornes t debut fin = false ->
  exists err,
    CreateIfAvailable user salle type objet date debut fin d = inl err
    /\ (find (fun s => s_SalleID s =? salle) (Salles d) <> None ->
        err = InvalidInput).
Proof.
  intros Ht Hd. unfold CreateIfAvailable. rewrite Ht, Hd.
  destruct (find (fun s => s_SalleID s =? salle) (Salles d)).
  - destruct (IsValid d date debut fin); cbn [negb];
      exists InvalidInput; split; reflexivity.
  - exists NotFound. split; [reflexivity|]. intros H. contradiction.
Qed.

(** C4 as stated fails: a request of 10 minutes for a type whose minimum is
    30 minutes, on a slot that is already taken, is refused by the
    availability check with the Conflict message, not with InvalidInput. *)
Lemma duree_courte_creneau_pris :
  find (fun t => t_TypeID t =? 1) (TypesEvenements base_exemple) = Some reunion
  /\ duree_dans_bornes reunion (h 9 0) (h 9 10) = false
  /\ run (reservation_page (session alice)
            (demande (h 9 0) (h 9 10) (lit "Point"))) [] base_exemple []
     = mk_Bilan (Termine tt) base_exemple [] [SalleNonDisponible]
  /\ categorie SalleNonDisponible = Some Conflict.
Proof. repeat split; reflexivity. Qed.

(** C4, amended: a request whose duration is below [DureeMin] or above
    [DureeMax] of its event type never creates a reservation; when the form
    is shown and submitted, the room exists and the storage answers, it
    fails with InvalidInput, except that a request with a valid subject and
    interval for a slot that is already taken is refused before the
    duration is looked at, by the availability check, with Conflict. *)
Theorem reservation_page_duree (user : User) (f : Formulaire)
    (t : TypeEvenement) (pannes : list bool) (d : DB) (e : list Message) :
  find (fun t => t_TypeID t =? type_selected f) (TypesEvenements d) = Some t ->
  duree_dans_bornes t (heure_debut f) (heure_fin f) = false ->
  base (run (reservation_page user f) pannes d e) = d
  /\ (formulaire_affiche pannes d -> submit f = true ->
      hd false (tl (tl pannes)) = false ->
      hd false (tl (tl (tl pannes))) = false ->
      find (fun s => s_SalleID s =? salle_selected f) (Salles d) <> None ->
      exists m,
        ecran (run (reservation_page user f) pannes d e) = e ++ [m]
        /\ categorie m
           = Some (if str_vide (strip (objet_reunion f))
                      || time_leb (heure_fin f) (heure_debut f)
                      || fn_SalleDisponible d (salle_selected f)
                           (date_reservation f) (heure_debut f) (heure_fin f)
                   then InvalidInput else Conflict)).
Proof.
  intros Ht Hd.
  destruct (CreateIfAvailable_hors_bornes (UserID user) (salle_selected f)
              (type_selected f) (strip (objet_reunion f)) (date_reservation f)
              (heure_debut f) (heure_fin f) d t Ht Hd) as (err & Hc & Herr).
  assert (Hs : forall p e', base (run (soumettre user f) p d e') = d).
  { intros p e'. rewrite run_soumettre.
    destruct (str_vide _); [reflexivity|].
    destruct (time_leb _ _); [reflexivity|].
    destruct (hd false p); [reflexivity|].
    destruct (fn_SalleDisponible _ _ _ _ _); [|reflexivity].
    rewrite run_reserver, Hc. destruct (hd false (tl p)); reflexivity. }
  split.
  - rewrite run_reservation_page.
    destruct (hd false pannes); [reflexivity|].
    destruct (hd false (tl pannes)); [reflexivity|].
    destruct (_ || _); [reflexivity|].
    destruct (submit f); [apply Hs | reflexivity].
  - intros Hl Hsub Hp3 Hp4 Hsalle.
    rewrite (run_reservation_page_affiche user f pannes d e Hl Hsub).
    rewrite run_soumettre.
    destruct (str_vide _); [exists ObjetObligatoire; split; reflexivity|].
    destruct (time_leb _ _); [exists HeureFinInvalide; split; reflexivity|].
    rewrite Hp3.
    destruct (fn_SalleDisponible _ _ _ _ _);
      [|exists SalleNonDisponible; split; reflexivity].
    rewrite run_reserver, Hp4, Hc, (Herr Hsalle).
    exists (ErreurProcedure (ErreurSQL InvalidInput)). split; reflexivity.
Qed.

Lemma reservation_page_duree_temoin :
  base (run (reservation_page (session alice)
               (demande (h 9 0) (h 9 10) (lit "Point"))) [] base_vide [])
  = base_vide
  /\ ecran (run (reservation_page (session alice)
                   (demande (h 9 0) (h 9 10) (lit "Point"))) [] base_vide [])
     = [ErreurProcedure (ErreurSQL InvalidInput)].
Proof.
  destruct (reservation_page_duree (session alice)
              (demande (h 9 0) (h 9 10) (lit "Point")) reunion [] base_vide [])
    as [H1 H2]; try reflexivity.
  split; [exact H1|].
  destruct H2 as (m & Hm & Hc).
  - repeat split; reflexivity.
  - reflexivity.
  - reflexivity.
  - reflexivity.
  - discriminate.
  - rewrite Hm. simpl. f_equal.
    destruct m as [ | [ | []] | | | | | | | | | | | ]; try discriminate.
    reflexivity.
Defined.

(** ** Invariants of interleaved executions *)

(** The database changes only by a stored procedure that succeeds, or by
    the clock. *)
Lemma pas_fil_donnees panne d f :
  snd (pas_fil panne d f) = d
  \/ exists p args, exec_procedure p args d = inr (snd (pas_fil panne d f)).
Proof.
  unfold pas_fil. destruct (prog f) as [a | | m k | R q k | p args k];
    cbn [snd]; try (left; reflexivity).
  unfold executer. destruct panne; [left; reflexivity|].
  destruct (exec_procedure p args d) as [err | d'] eqn:E; cbn [snd].
  - left. reflexivity.
  - right. exists p, args. exact E.
Qed.

Lemma executer_plan_invariant (P : DB -> Prop) :
  (forall d dt, P d ->
     P (mk_DB (Utilisateurs d) (Salles d) (TypesEvenements d) (Reservations d)
          (horloge d + Z.of_N dt))) ->
  (forall p args d d', exec_procedure p args d = inr d' -> P d -> P d') ->
  forall plan s, P (donnees s) -> P (donnees (executer_plan plan s)).
Proof.
  intros Htic Hexec plan. unfold executer_plan.
  induction plan as [|c plan IH]; intros s Hs; cbn [fold_left]; [exact Hs|].
  apply IH. destruct c as [i panne | dt]; cbn [etape].
  - destruct (nth_error (fils s) i) as [f|]; [|exact Hs].
    cbn [donnees].
    destruct (pas_fil_donnees panne (donnees s) f) as [-> | (p & args & E)].
    + exact Hs.
    + apply (Hexec p args (donnees s)); assumption.
  - cbn [donnees]. apply Htic, Hs.
Qed.

(** A successful procedure call is a successful [CreateIfAvailable] or a
    successful [UpdateStatus]. *)
Lemma exec_procedure_formes p args d d' :
  exec_procedure p args d = inr d' ->
  (exists user salle type objet date debut fin,
     CreateIfAvailable user salle type objet date debut fin d = inr d')
  \/ (exists acteur id a comment, UpdateStatus acteur id a comment d = inr d').
Proof.
  unfold exec_procedure. intros H.
  repeat match type of H with
         | context [match ?x with _ => _ end] =>
             is_var x; destruct x; try discriminate H
         | context [commentaire_de ?x] =>
             is_var x; destruct x; cbn [commentaire_de] in H;
             try discriminate H
         end;
    solve [left; do 7 eexists; exact H | right; do 4 eexists; exact H].
Qed.

Lemma UpdateStatus_inr acteur id a comment d d' :
  UpdateStatus acteur id a comment d = inr d' ->
  exists attendu nouveau,
    table attendu a = Some nouveau
    /\ d' = avec_Reservations d
              (map (ecrire_statut id attendu nouveau acteur a comment)
                   (Reservations d)).
Proof.
  unfold UpdateStatus. destruct (negb (autorise d acteur a _)); [discriminate|].
  destruct (find (fun r => r_ReservationID r =? id) (Reservations d)) as [r|];
    [|discriminate].
  destruct (table (r_Statut r) a) as [s'|] eqn:Et; [|discriminate].
  intros H. injection H as <-. exists (r_Statut r), s'. split; [exact Et|reflexivity].
Qed.

Lemma table_actif s a s' : table s a = Some s' -> actif s = true.
Proof. destruct s, a; simpl; intros H; try discriminate H; reflexivity. Qed.

(** A row in a terminal status is outside the reach of the write. *)
Lemma ecrire_statut_terminal id attendu nouveau acteur a comment r :
  table attendu a = Some nouveau -> actif (r_Statut r) = false ->
  ecrire_statut id attendu nouveau acteur a comment r = r.
Proof.
  intros Ht Hr. unfold ecrire_statut.
  replace (Statut_eqb (r_Statut r) attendu) with false.
  - rewrite andb_false_r. reflexivity.
  - apply table_actif in Ht. destruct (r_Statut r), attendu;
      simpl in *; congruence.
Qed.

Lemma exec_procedure_terminal p args d d' i r :
  exec_procedure p args d = inr d' ->
  nth_error (Reservations d) i = Some r -> actif (r_Statut r) = false ->
  nth_error (Reservations d') i = Some r.
Proof.
  intros Hx Hi Hr.
  destruct (exec_procedure_formes p args d d' Hx)
    as [(u & s & t & o & dt & hd & hf & Hc) | (acteur & id & a & c & Hu)].
  - apply CreateIfAvailable_inr in Hc as (-> & _).
    cbn [Reservations avec_Reservations].
    rewrite nth_error_app1; [exact Hi|].
    apply nth_error_Some. rewrite Hi. discriminate.
  - apply UpdateStatus_inr in Hu as (attendu & nouveau & Ht & ->).
    cbn [Reservations avec_Reservations].
    rewrite nth_error_map, Hi. cbn [option_map].
    rewrite (ecrire_statut_terminal _ _ _ _ _ _ _ Ht Hr). reflexivity.
Qed.

(** ** Reservations in a terminal status *)

Lemma q_reservations_pending_origine d row :
  In row (q_reservations_pending d) ->
  exists r, In r (Reservations d) /\ r_Statut r = EnAttente
            /\ lp_ReservationID row = r_ReservationID r.
Proof.
  unfold q_reservations_pending. intros H.
  apply (Permutation_in _ (order_by_perm _ _)) in H.
  apply in_flat_map in H as (r & Hr & H).
  apply in_flat_map in H as (u & _ & H).
  apply in_flat_map in H as (s & _ & H).
  apply in_flat_map in H as (te & _ & [<- | []]).
  apply filter_In in Hr as [Hr Hs].
  exists r. repeat split; [exact Hr|].
  destruct (r_Statut r); simpl in Hs; congruence.
Qed.

Lemma statut_annulable (s : Statut) :
  existsb (Statut_eqb s) [EnAttente; Validee] = actif s.
Proof. destruct s; reflexivity. Qed.

(** C6: a reservation whose status is 'Refusee' or 'Annulee' has left the
    state machine for good.  The transition table has no entry for it, so
    every transition sent for it to the store, Approve, Reject or Cancel,
    by any actor and with any comment, fails: with IllegalTransition for an
    actor who passes the role check that comes first, with Forbidden for
    one who does not.  And in every interleaved execution of any sessions
    its row, hence its status, stays as it is. *)
Theorem statut_terminal_definitif :
  (forall d acteur id a comment r,
     find (fun x => r_ReservationID x =? id) (Reservations d) = Some r ->
     actif (r_Statut r) = false ->
     table (r_Statut r) a = None
     /\ UpdateStatus acteur id a comment d
        = inl (if autorise d acteur a (Some r) then IllegalTransition
               else Forbidden))
  /\ (forall s plan i r,
        nth_error (Reservations (donnees s)) i = Some r ->
        actif (r_Statut r) = false ->
        nth_error (Reservations (donnees (executer_plan plan s))) i = Some r).
Proof.
  split.
  - intros d acteur id a comment r Hf Hr.
    assert (Ht : table (r_Statut r) a = None)
      by (destruct (r_Statut r), a; simpl in *; try discriminate; reflexivity).
    split; [exact Ht|].
    unfold UpdateStatus. rewrite Hf, Ht.
    destruct (autorise d acteur a (Some r)); reflexivity.
  - intros s plan i r Hi Hr.
    apply (executer_plan_invariant
             (fun d => nth_error (Reservations d) i = Some r)).
    + intros d dt H. exact H.
    + intros p args d d' Hx H.
      apply (exec_procedure_terminal p args d d' i r Hx H Hr).
    + exact Hi.
Qed.

Lemma statut_terminal_definitif_temoin :
  UpdateStatus 2 4 Approve None base_exemple = inl IllegalTransition
  /\ UpdateStatus 2 4 Reject None base_exemple = inl IllegalTransition
  /\ UpdateStatus 1 4 Cancel None base_exemple = inl IllegalTransition
  /\ UpdateStatus 2 1 Approve None base_refusee = inl IllegalTransition
  /\ UpdateStatus 1 1 Cancel None base_refusee = inl IllegalTransition
  /\ option_map r_Statut
       (nth_error
          (Reservations
             (donnees (executer_plan plan_annulations
                         (mk_Systeme base_refusee sessions_annulations)))) 0)
     = Some Refusee
  /\ option_map r_Statut
       (nth_error
          (Reservations
             (donnees (executer_plan plan_annulations
                         (mk_Systeme base_refusee sessions_annulations)))) 3)
     = Some Annulee.
Proof.
  destruct statut_terminal_definitif as [Hstore Hexec].
  pose (r4 := mk_Reservation 4 1 101 1 (lit "Atelier") 19876 (h 9 30) (h 10 30)
                Annulee (19875 * 1440 + 5) None None).
  pose (r1 := mk_Reservation 1 1 101 1 (lit "Point hebdo") 19876 (h 9 0)
                (h 10 0) Refusee (19875 * 1440 + 50)
                (Some (commentaire_refus [])) (Some 2)).
  split; [exact (proj2 (Hstore base_exemple 2 4 Approve None r4 eq_refl eq_refl))|].
  split; [exact (proj2 (Hstore base_exemple 2 4 Reject None r4 eq_refl eq_refl))|].
  split; [exact (proj2 (Hstore base_exemple 1 4 Cancel None r4 eq_refl eq_refl))|].
  split; [exact (proj2 (Hstore base_refusee 2 1 Approve None r1 eq_refl eq_refl))|].
  split; [exact (proj2 (Hstore base_refusee 1 1 Cancel None r1 eq_refl eq_refl))|].
  split.
  - rewrite (Hexec (mk_Systeme base_refusee sessions_annulations)
               plan_annulations 0%nat r1 eq_refl eq_refl).
    reflexivity.
  - rewrite (Hexec (mk_Systeme base_refusee sessions_annulations)
               plan_annulations 3%nat r4 eq_refl eq_refl).
    reflexivity.
Defined.

(** ** No double booking *)

Lemma exec_procedure_sans_double p args d d' :
  exec_procedure p args d = inr d' ->
  sans_double_reservation (Reservations d) ->
  sans_double_reservation (Reservations d').
Proof.
  intros Hx Hinv.
  destruct (exec_procedure_formes p args d d' Hx)
    as [(u & s & t & o & dt & hd & hf & Hc) | (acteur & id & a & c & Hu)].
  - apply CreateIfAvailable_inr in Hc as (-> & Hlibre & _).
    cbn [Reservations avec_Reservations].
    unfold fn_SalleDisponible in Hlibre. apply negb_true_iff in Hlibre.
    assert (Hnone : forall x, In x (Reservations d) ->
                              occupe s dt hd hf x = false).
    { intros x Hin. destruct (occupe s dt hd hf x) eqn:E; [|reflexivity].
      assert (existsb (occupe s dt hd hf) (Reservations d) = true)
        by (apply existsb_exists; exists x; split; assumption).
      congruence. }
    intros i j x y Hij Hi Hj Hax Hay Hsalle Hdate [H1 H2].
    destruct (Nat.lt_ge_cases i (length (Reservations d))) as [Li | Li];
      destruct (Nat.lt_ge_cases j (length (Reservations d))) as [Lj | Lj].
    + rewrite nth_error_app1 in Hi, Hj by assumption.
      apply (Hinv i j x y); try assumption. split; assumption.
    + rewrite nth_error_app1 in Hi by assumption.
      rewrite nth_error_app2 in Hj by assumption.
      destruct (j - length (Reservations d))%nat as [|n]; cbn in Hj;
        [|destruct n; discriminate].
      injection Hj as <-. cbn in *.
      apply nth_error_In in Hi. specialize (Hnone x Hi).
      assert (occupe s dt hd hf x = true)
        by (apply occupe_spec; repeat split; assumption).
      congruence.
    + rewrite nth_error_app2 in Hi by assumption.
      rewrite nth_error_app1 in Hj by assumption.
      destruct (i - length (Reservations d))%nat as [|n]; cbn in Hi;
        [|destruct n; discriminate].
      injection Hi as <-. cbn in *.
      apply nth_error_In in Hj. specialize (Hnone y Hj).
      assert (occupe s dt hd hf y = true)
        by (apply occupe_spec; repeat split; auto).
      congruence.
    + rewrite nth_error_app2 in Hi, Hj by assumption.
      destruct (i - length (Reservations d))%nat as [|n] eqn:Ei; cbn in Hi;
        [|destruct n; discriminate].
      destruct (j - length (Reservations d))%nat as [|m] eqn:Ej; cbn in Hj;
        [|destruct m; discriminate].
      lia.
  - apply UpdateStatus_inr in Hu as (attendu & nouveau & Ht & ->).
    cbn [Reservations avec_Reservations].
    intros i j x y Hij Hi Hj Hax Hay Hsalle Hdate Hov.
    rewrite nth_error_map in Hi, Hj.
    destruct (nth_error (Reservations d) i) as [x0|] eqn:Ei; [|discriminate].
    destruct (nth_error (Reservations d) j) as [y0|] eqn:Ej; [|discriminate].
    cbn in Hi, Hj. injection Hi as <-. injection Hj as <-.
    apply table_actif in Ht.
    unfold ecrire_statut in *.
    apply (Hinv i j x0 y0 Hij Ei Ej).
    + destruct ((r_ReservationID x0 =? id) && Statut_eqb (r_Statut x0) attendu)
        eqn:E; [|exact Hax].
      apply andb_true_iff in E as [_ E].
      destruct (r_Statut x0), attendu; simpl in *; congruence.
    + destruct ((r_ReservationID y0 =? id) && Statut_eqb (r_Statut y0) attendu)
        eqn:E; [|exact Hay].
      apply andb_true_iff in E as [_ E].
      destruct (r_Statut y0), attendu; simpl in *; congruence.
    + destruct (_ && _), (_ && _); exact Hsalle.
    + destruct (_ && _), (_ && _); exact Hdate.
    + destruct (_ && _), (_ && _); exact Hov.
Qed.

(** C1: whatever the sessions run and however their storage operations are
    interleaved with each other and with the clock, no two distinct
    active reservations of one room on one date overlap (half-open rule)
    after the execution if none did before: every reservation request,
    approval, refusal and cancellation preserves it. *)
Theorem sans_double_reservation_preserve (s : Systeme) (plan : list Choix) :
  sans_double_reservation (Reservations (donnees s)) ->
  sans_double_reservation (Reservations (donnees (executer_plan plan s))).
Proof.
  apply (executer_plan_invariant
           (fun d => sans_double_reservation (Reservations d))).
  - intros d dt H. exact H.
  - apply exec_procedure_sans_double.
Qed.

Lemma sans_double_reservation_preserve_temoin :
  sans_double_reservation
    (Reservations
       (donnees (executer_plan plan_exemple
                   (mk_Systeme base_exemple
                      (map (fun dem => mk_Fil (reservation_page (fst dem) (snd dem)) [])
                           demandes_exemple))))).
Proof.
  apply sans_double_reservation_preserve.
  intros i j a b Hij Hi Hj Ha Hb _ _ [H1 H2].
  cbn [donnees] in Hi, Hj.
  assert (Li : (i < length (Reservations base_exemple))%nat)
    by (apply nth_error_Some; rewrite Hi; discriminate).
  assert (Lj : (j < length (Reservations base_exemple))%nat)
    by (apply nth_error_Some; rewrite Hj; discriminate).
  cbn in Li, Lj.
  destruct i as [|[|[|[|i]]]]; try lia; destruct j as [|[|[|[|j]]]]; try lia;
    cbn in Hi, Hj; injection Hi as <-; injection Hj as <-;
    cbn in Ha, Hb, H1, H2; discriminate.
Defined.

(** ** A race for one slot *)

Lemma time_eqb_eq (a b : time) : time_eqb a b = true -> a = b.
Proof.
  unfold time_eqb. destruct a as [ha ma], b as [hb mb]. cbn [hour minute].
  intros H. apply andb_true_iff in H as [H1 H2].
  apply Nat.eqb_eq in H1, H2. congruence.
Qed.

Lemma nth_error_remplace_eq {A : Type} (i : nat) (x : A) (l : list A) :
  (i < length l)%nat -> nth_error (remplace i x l) i = Some x.
Proof.
  revert i. induction l as [|y t IH]; intros i Hi; cbn in Hi; [lia|].
  destruct i as [|i]; cbn; [reflexivity|]. apply IH. lia.
Qed.

Lemma nth_error_remplace_neq {A : Type} (i j : nat) (x : A) (l : list A) :
  i <> j -> nth_error (remplace i x l) j = nth_error l j.
Proof.
  revert i j. induction l as [|y t IH]; intros i j Hij; [reflexivity|].
  destruct i as [|i], j as [|j]; cbn; try reflexivity; try lia.
  apply IH. lia.
Qed.

Lemma length_remplace {A : Type} (i : nat) (x : A) (l : list A) :
  length (remplace i x l) = length l.
Proof.
  revert i. induction l as [|y t IH]; intros i; [reflexivity|].
  destruct i; cbn; [reflexivity|]. rewrite IH. reflexivity.
Qed.

(** On a request that passes the validations, [sp_ReserverSalle] inserts
    exactly when the slot is free and raises Conflict otherwise. *)
Lemma CreateIfAvailable_valide user salle type objet date debut fin d s t :
  find (fun s => s_SalleID s =? salle) (Salles d) = Some s ->
  find (fun t => t_TypeID t =? type) (TypesEvenements d) = Some t ->
  IsValid d date debut fin = true ->
  duree_dans_bornes t debut fin = true ->
  CreateIfAvailable user salle type objet date debut fin d
  = if fn_SalleDisponible d salle date debut fin
    then inr (avec_Reservations d
                (Reservations d ++
                 [mk_Reservation (prochain_id (Reservations d)) user salle type
                    objet date debut fin EnAttente (horloge d) None None]))
    else inl Conflict.
Proof.
  intros Hs Ht Hv Hd. unfold CreateIfAvailable. rewrite Hs, Ht, Hv, Hd.
  destruct (fn_SalleDisponible d salle date debut fin); reflexivity.
Qed.

Section Course.
Variables (d0 : DB) (salle date : Z) (debut fin : time).
Variable demandes : list (User * Formulaire).
Hypothesis Hsalles : df_empty (q_salles d0) = false.
Hypothesis Htypes : df_empty (q_types_evenements d0) = false.
Hypothesis Hlibre : fn_SalleDisponible d0 salle date debut fin = true.
Hypothesis Hvalides : forallb (demande_valide d0 salle date debut fin) demandes = true.

Lemma demande_valide_inv dem :
  demande_valide d0 salle date debut fin dem = true ->
  submit (snd dem) = true
  /\ salle_selected (snd dem) = salle /\ date_reservation (snd dem) = date
  /\ heure_debut (snd dem) = debut /\ heure_fin (snd dem) = fin
  /\ time_ltb debut fin = true
  /\ str_vide (strip (objet_reunion (snd dem))) = false
  /\ aujourdhui d0 <= date
  /\ (exists s, find (fun s => s_SalleID s =? salle) (Salles d0) = Some s)
  /\ (exists t, find (fun t => t_TypeID t =? type_selected (snd dem))
                  (TypesEvenements d0) = Some t
                /\ duree_dans_bornes t debut fin = true).
Proof.
  unfold demande_valide. rewrite !andb_true_iff.
  intros (((((((((H1 & H2) & H3) & H4) & H5) & H6) & H7) & H8) & H9) & H10).
  apply Z.eqb_eq in H2, H3. apply time_eqb_eq in H4, H5.
  apply negb_true_iff in H7. apply Z.leb_le in H8.
  repeat split; try assumption.
  - destruct (find (fun s => s_SalleID s =? salle) (Salles d0)) as [s|];
      [exists s; reflexivity | discriminate].
  - destruct (find _ (TypesEvenements d0)) as [t|]; [|discriminate].
    exists t. split; [reflexivity|]. rewrite <- H4, <- H5. exact H10.
Qed.

Lemma pas_fil_stade (rs : list Reservation) (dem : User * Formulaire) (st : Stade) :
  demande_valide d0 salle date debut fin dem = true ->
  pas_fil false (avec_Reservations d0 rs) (fil_stade d0 dem st)
  = (fil_stade d0 dem
       (suivant (fn_SalleDisponible (avec_Reservations d0 rs) salle date debut fin) st),
     match st with
     | S_libre =>
         if fn_SalleDisponible (avec_Reservations d0 rs) salle date debut fin
         then avec_Reservations d0
                (rs ++ [mk_Reservation (prochain_id rs) (UserID (fst dem)) salle
                          (type_selected (snd dem))
                          (strip (objet_reunion (snd dem))) date debut fin
                          EnAttente (horloge d0) None None])
         else avec_Reservations d0 rs
     | _ => avec_Reservations d0 rs
     end).
Proof.
  intros Hv.
  destruct (demande_valide_inv dem Hv)
    as (Hsub & Hsa & Hda & Hde & Hfi & Hlt & Hob & Hau & (s & Hs) & (t & Ht & Hdu)).
  destruct st; try reflexivity.
  - (* S_salles *)
    unfold fil_stade, pas_fil. cbn [prog prog_stade ecran_stade affichage].
    unfold get_types_evenements, execute_query. cbn [bind lire].
    change (q_types_evenements (avec_Reservations d0 rs))
      with (q_types_evenements d0).
    rewrite Hsalles, Htypes, Hsub. reflexivity.
  - (* S_formulaire *)
    unfold fil_stade, pas_fil. cbn [prog prog_stade ecran_stade affichage].
    unfold soumettre. rewrite Hob, time_leb_ltb, Hde, Hfi, Hlt, Hsa, Hda.
    cbn [negb]. unfold check_availability, execute_query. cbn [bind lire].
    unfold q_disponible.
    destruct (fn_SalleDisponible (avec_Reservations d0 rs) salle date debut fin);
      reflexivity.
  - (* S_libre *)
    unfold fil_stade, pas_fil. cbn [prog prog_stade ecran_stade affichage].
    unfold reserver, execute_procedure. cbn [bind].
    unfold executer. cbn [exec_procedure].
    rewrite Hsa, Hda, Hde, Hfi.
    rewrite (CreateIfAvailable_valide _ _ _ _ _ _ _ (avec_Reservations d0 rs)
               s t Hs Ht).
    + destruct (fn_SalleDisponible (avec_Reservations d0 rs) salle date debut fin);
        reflexivity.
    + unfold IsValid. rewrite Hlt. apply Z.leb_le in Hau.
      change (aujourdhui (avec_Reservations d0 rs)) with (aujourdhui d0).
      rewrite Hau. reflexivity.
    + exact Hdu.
Qed.

Lemma avant_non_gagnant st : avant st = true -> gagnant st = false.
Proof. destruct st; simpl; congruence. Qed.

Lemma gagnant_suivant_pris st : gagnant (suivant false st) = gagnant st.
Proof. destruct st; reflexivity. Qed.

Lemma avant_suivant_libre st :
  avant st = true -> st <> S_libre -> avant (suivant true st) = true.
Proof. destruct st; simpl; congruence. Qed.

Lemma nouvelle_occupe dem :
  demande_valide d0 salle date debut fin dem = true ->
  occupe salle date debut fin (nouvelle d0 salle date debut fin dem) = true.
Proof.
  intros Hv. destruct (demande_valide_inv dem Hv) as (_ & _ & _ & _ & _ & Hlt & _).
  unfold occupe, nouvelle, Overlaps. cbn. rewrite !Z.eqb_refl, Hlt. reflexivity.
Qed.

Lemma demande_de i dem :
  nth_error demandes i = Some dem ->
  demande_valide d0 salle date debut fin dem = true.
Proof.
  intros H. rewrite forallb_forall in Hvalides.
  apply Hvalides, (nth_error_In _ _ H).
Qed.

Lemma etape_invariant_course s c :
  sans_panne c = true ->
  invariant_course d0 salle date debut fin demandes s ->
  invariant_course d0 salle date debut fin demandes (etape s c).
Proof.
  intros Hc (Hlen & Hinv).
  destruct c as [i [|] | dt]; try discriminate Hc. cbn [etape].
  destruct (nth_error (fils s) i) as [f|] eqn:Ef; [|split; assumption].
  assert (Hi : (i < length demandes)%nat).
  { rewrite <- Hlen. apply nth_error_Some. rewrite Ef. discriminate. }
  destruct (nth_error demandes i) as [dem|] eqn:Ed;
    [|apply nth_error_None in Ed; lia].
  pose proof (demande_de i dem Ed) as Hv.
  split; [cbn [fils]; rewrite length_remplace; exact Hlen|].
  destruct Hinv as [(Hd & Hst) | (w & dem_w & Hw & Hd & Hst)].
  - (* the slot is still free *)
    destruct (Hst i dem Ed) as (st & Hf & Ha).
    rewrite Hf in Ef. injection Ef as <-.
    rewrite Hd, (pas_fil_stade (Reservations d0) dem st Hv).
    change (fn_SalleDisponible (avec_Reservations d0 (Reservations d0))
              salle date debut fin)
      with (fn_SalleDisponible d0 salle date debut fin).
    rewrite Hlibre. cbn [fst snd donnees fils].
    assert (Hcas : st = S_libre \/ st <> S_libre)
      by (destruct st; (left; reflexivity) || (right; discriminate)).
    destruct Hcas as [-> | Hne].
    + right. exists i, dem. split; [exact Ed|]. split; [reflexivity|].
      intros j dem' Hj. destruct (Nat.eqb_spec j i) as [-> | Hji].
      * exists S_cree. rewrite Ed in Hj. injection Hj as <-.
        rewrite nth_error_remplace_eq by (rewrite Hlen; exact Hi).
        split; reflexivity.
      * destruct (Hst j dem' Hj) as (st' & Hf' & Ha').
        exists st'. rewrite nth_error_remplace_neq by congruence.
        split; [exact Hf' | apply avant_non_gagnant, Ha'].
    + left. split; [destruct st; try reflexivity; contradiction|].
      intros j dem' Hj. destruct (Nat.eqb_spec j i) as [-> | Hji].
      * exists (suivant true st). rewrite Ed in Hj. injection Hj as <-.
        rewrite nth_error_remplace_eq by (rewrite Hlen; exact Hi).
        split; [reflexivity | apply avant_suivant_libre; assumption].
      * destruct (Hst j dem' Hj) as (st' & Hf' & Ha').
        exists st'. rewrite nth_error_remplace_neq by congruence.
        split; assumption.
  - (* one request has been accepted *)
    destruct (Hst i dem Ed) as (st & Hf & Hg).
    rewrite Hf in Ef. injection Ef as <-.
    rewrite Hd, (pas_fil_stade _ dem st Hv).
    assert (Hpris : fn_SalleDisponible
                      (avec_Reservations d0
                         (Reservations d0 ++ [nouvelle d0 salle date debut fin dem_w]))
                      salle date debut fin = false).
    { unfold fn_SalleDisponible. cbn [Reservations avec_Reservations].
      rewrite existsb_app. cbn [existsb].
      rewrite (nouvelle_occupe dem_w (demande_de w dem_w Hw)).
      rewrite orb_true_r. reflexivity. }
    rewrite Hpris. cbn [fst snd donnees fils].
    right. exists w, dem_w. split; [exact Hw|].
    split; [destruct st; reflexivity|].
    intros j dem' Hj. destruct (Nat.eqb_spec j i) as [-> | Hji].
    + exists (suivant false st). rewrite Ed in Hj. injection Hj as <-.
      rewrite nth_error_remplace_eq by (rewrite Hlen; exact Hi).
      split; [reflexivity|]. rewrite gagnant_suivant_pris. exact Hg.
    + destruct (Hst j dem' Hj) as (st' & Hf' & Hg').
      exists st'. rewrite nth_error_remplace_neq by congruence.
      split; assumption.
Qed.

Lemma executer_plan_invariant_course plan s :
  forallb sans_panne plan = true ->
  invariant_course d0 salle date debut fin demandes s ->
  invariant_course d0 salle date debut fin demandes (executer_plan plan s).
Proof.
  unfold executer_plan. revert s.
  induction plan as [|c plan IH]; intros s Hp Hs; [exact Hs|].
  cbn in Hp. apply andb_true_iff in Hp as [Hc Hp]. cbn [fold_left].
  apply IH; [exact Hp|]. apply etape_invariant_course; assumption.
Qed.

Lemma termine_avant dem st :
  demande_valide d0 salle date debut fin dem = true ->
  avant st = true -> termine (fil_stade d0 dem st) = false.
Proof.
  intros Hv Ha.
  destruct (demande_valide_inv dem Hv)
    as (Hsub & Hsa & Hda & Hde & Hfi & Hlt & Hob & _).
  destruct st; try discriminate Ha; try reflexivity.
  unfold termine, fil_stade. cbn [prog prog_stade]. unfold soumettre.
  rewrite Hob, time_leb_ltb, Hde, Hfi, Hlt. reflexivity.
Qed.

End Course.

Lemma invariant_course_initial d0 salle date debut fin demandes :
  invariant_course d0 salle date debut fin demandes (course d0 demandes).
Proof.
  split; [cbn; apply length_map|]. left. split.
  - cbn. destruct d0; reflexivity.
  - intros i dem Hi. exists S_debut. split; [|reflexivity].
    cbn [course fils]. rewrite nth_error_map, Hi. reflexivity.
Qed.

(** C2: sessions that race for the same room, date and interval with
    requests that are valid on a free slot, their storage operations
    interleaved in any order and all answered: once every session has
    finished, exactly one of them has been told that its reservation is
    created, exactly one row has been added, and every other session has
    received a Conflict message, from the availability check or from the
    procedure, whose check and insert are one atomic operation. *)
Theorem course_un_seul_succes (d0 : DB) (salle date : Z) (debut fin : time)
    (demandes : list (User * Formulaire)) (plan : list Choix) :
  demandes <> [] ->
  df_empty (q_salles d0) = false ->
  df_empty (q_types_evenements d0) = false ->
  fn_SalleDisponible d0 salle date debut fin = true ->
  forallb (demande_valide d0 salle date debut fin) demandes = true ->
  forallb sans_panne plan = true ->
  forallb termine (fils (executer_plan plan (course d0 demandes))) = true ->
  exists w dem_w,
    nth_error demandes w = Some dem_w
    /\ Reservations (donnees (executer_plan plan (course d0 demandes)))
       = Reservations d0 ++ [nouvelle d0 salle date debut fin dem_w]
    /\ length (fils (executer_plan plan (course d0 demandes))) = length demandes
    /\ forall i f,
         nth_error (fils (executer_plan plan (course d0 demandes))) i = Some f ->
         if Nat.eqb i w then affichage f = [ReservationCreee]
         else exists m, affichage f = [m] /\ categorie m = Some Conflict.
Proof.
  intros Hne Hsalles Htypes Hlibre Hvalides Hplan Hfin.
  pose proof (executer_plan_invariant_course d0 salle date debut fin demandes
                Hsalles Htypes Hlibre Hvalides plan (course d0 demandes) Hplan
                (invariant_course_initial d0 salle date debut fin demandes))
    as (Hlen & Hinv).
  rewrite forallb_forall in Hfin.
  destruct Hinv as [(_ & Hst) | (w & dem_w & Hw & Hd & Hst)].
  - destruct demandes as [|dem rest]; [contradiction|].
    destruct (Hst 0%nat dem eq_refl) as (st & Hf & Ha).
    pose proof (Hfin _ (nth_error_In _ _ Hf)) as Ht.
    rewrite (termine_avant d0 salle date debut fin dem st) in Ht;
      [discriminate | | exact Ha].
    cbn in Hvalides. apply andb_true_iff in Hvalides. apply Hvalides.
  - exists w, dem_w. split; [exact Hw|]. split; [rewrite Hd; reflexivity|].
    split; [exact Hlen|].
    intros i f Hf.
    assert (Hi : (i < length demandes)%nat).
    { rewrite <- Hlen. apply nth_error_Some. rewrite Hf. discriminate. }
    destruct (nth_error demandes i) as [dem|] eqn:Ed;
      [|apply nth_error_None in Ed; lia].
    destruct (Hst i dem Ed) as (st & Hf' & Hg).
    rewrite Hf' in Hf. injection Hf as <-.
    pose proof (Hfin _ (nth_error_In _ _ Hf')) as Ht.
    assert (Hv : demande_valide d0 salle date debut fin dem = true).
    { rewrite forallb_forall in Hvalides.
      apply Hvalides, (nth_error_In _ _ Ed). }
    destruct (avant st) eqn:Ha.
    { rewrite (termine_avant d0 salle date debut fin dem st Hv Ha) in Ht.
      discriminate. }
    destruct (Nat.eqb i w); destruct st; try discriminate;
      try reflexivity.
    + exists SalleNonDisponible. split; reflexivity.
    + exists (ErreurProcedure (ErreurSQL Conflict)). split; reflexivity.
Qed.

Lemma course_un_seul_succes_temoin :
  exists w dem_w,
    nth_error demandes_exemple w = Some dem_w
    /\ Reservations (donnees (executer_plan plan_exemple
                                (course base_vide demandes_exemple)))
       = Reservations base_vide
         ++ [nouvelle base_vide 101 19876 (h 9 0) (h 10 0) dem_w]
    /\ length (fils (executer_plan plan_exemple
                       (course base_vide demandes_exemple)))
       = length demandes_exemple
    /\ forall i f,
         nth_error (fils (executer_plan plan_exemple
                            (course base_vide demandes_exemple))) i = Some f ->
         if Nat.eqb i w then affichage f = [ReservationCreee]
         else exists m, affichage f = [m] /\ categorie m = Some Conflict.
Proof.
  apply (course_un_seul_succes base_vide 101 19876 (h 9 0) (h 10 0)
           demandes_exemple plan_exemple); try reflexivity.
  discriminate.
Defined.

(** In the example both sessions have passed the availability check of the
    page before either calls the procedure: the check of the page and the
    insert are two storage operations, and it is the check inside the
    procedure that refuses the second request. *)
Example course_exemple_controles_passes :
  fils (executer_plan (firstn 6 plan_exemple) (course base_vide demandes_exemple))
  = map (fun dem => fil_stade base_vide dem S_libre) demandes_exemple
  /\ Reservations
       (donnees (executer_plan (firstn 6 plan_exemple)
                   (course base_vide demandes_exemple))) = []
  /\ map affichage
       (fils (executer_plan plan_exemple (course base_vide demandes_exemple)))
     = [[ErreurProcedure (ErreurSQL Conflict)]; [ReservationCreee]].
Proof. repeat split; reflexivity. Qed.

(* ================================================================== *)
(** * The remaining functions of app.py *)
(* ================================================================== *)

(** ** Runs that record the procedure calls *)

Lemma suivre_bind {A B : Type} sem (p : Prog A) (f : A -> Prog B) pannes d e :
  suivre sem (bind p f) pannes d e =
  match issue (fst (suivre sem p pannes d e)) with
  | Termine a =>
      (fst (suivre sem (f a) (pannes_restantes (fst (suivre sem p pannes d e)))
              (base (fst (suivre sem p pannes d e)))
              (ecran (fst (suivre sem p pannes d e)))),
       snd (suivre sem p pannes d e)
       ++ snd (suivre sem (f a) (pannes_restantes (fst (suivre sem p pannes d e)))
                 (base (fst (suivre sem p pannes d e)))
                 (ecran (fst (suivre sem p pannes d e)))))
  | Relance =>
      (mk_Bilan Relance (base (fst (suivre sem p pannes d e)))
         (pannes_restantes (fst (suivre sem p pannes d e)))
         (ecran (fst (suivre sem p pannes d e))),
       snd (suivre sem p pannes d e))
  end.
Proof.
  revert pannes d e.
  induction p as [a | | m k IH | R q k IH | pr args k IH]; intros pannes d e.
  - cbn. destruct (suivre sem (f a) pannes d e). reflexivity.
  - reflexivity.
  - cbn [bind suivre]. apply IH.
  - cbn [bind suivre]. apply IH.
  - cbn [bind suivre fst snd]. rewrite IH.
    destruct (issue (fst (suivre sem (k _) _ _ _))); reflexivity.
Qed.

(** With the procedures of the model, [suivre] is [run]. *)
Lemma suivre_run {A : Type} (p : Prog A) pannes d e :
  fst (suivre exec_procedure p pannes d e) = run p pannes d e.
Proof.
  revert pannes d e.
  induction p as [a | | m k IH | R q k IH | pr args k IH]; intros pannes d e;
    cbn [suivre run fst]; try reflexivity; try apply IH.
Qed.

(** A query followed by the rest of the page. *)
Lemma suivre_query {R A : Type} sem (q : DB -> list R) (k : list R -> Prog A)
    pannes d e :
  suivre sem (bind (execute_query q) k) pannes d e
  = suivre sem (k (if hd false pannes then [] else q d)) (tl pannes) d
      (if hd false pannes then e ++ [ErreurRequete] else e).
Proof.
  unfold execute_query. cbn [bind suivre]. unfold lire.
  destruct (hd false pannes); reflexivity.
Qed.

Lemma run_query {R A : Type} (q : DB -> list R) (k : list R -> Prog A) pannes d e :
  run (bind (execute_query q) k) pannes d e
  = run (k (if hd false pannes then [] else q d)) (tl pannes) d
      (if hd false pannes then e ++ [ErreurRequete] else e).
Proof.
  unfold execute_query. cbn [bind run]. unfold lire.
  destruct (hd false pannes); reflexivity.
Qed.

(** A procedure call followed by the rest of the page. *)
Lemma suivre_procedure {A : Type} sem p args (k : bool -> Prog A) pannes d e :
  suivre sem (bind (execute_procedure p args) k) pannes d e
  = (fst (suivre sem
            (k (match fst (executer_avec sem p args (hd false pannes) d) with
                | None => true
                | Some _ => false
                end))
            (tl pannes) (snd (executer_avec sem p args (hd false pannes) d))
            (match fst (executer_avec sem p args (hd false pannes) d) with
             | None => e
             | Some x => e ++ [ErreurProcedure x]
             end)),
     (p, args)
     :: snd (suivre sem
               (k (match fst (executer_avec sem p args (hd false pannes) d) with
                   | None => true
                   | Some _ => false
                   end))
               (tl pannes) (snd (executer_avec sem p args (hd false pannes) d))
               (match fst (executer_avec sem p args (hd false pannes) d) with
                | None => e
                | Some x => e ++ [ErreurProcedure x]
                end))).
Proof.
  unfold execute_procedure. cbn [bind suivre].
  destruct (fst (executer_avec sem p args (hd false pannes) d)); reflexivity.
Qed.

(** A call that fails leaves the database as it was. *)
Lemma executer_avec_echec sem p args panne d x :
  fst (executer_avec sem p args panne d) = Some x ->
  snd (executer_avec sem p args panne d) = d.
Proof.
  unfold executer_avec. destruct panne; [reflexivity|].
  destruct (sem p args d); [reflexivity | discriminate].
Qed.

Lemma suivre_check_availability sem salle date debut fin pannes d e :
  suivre sem (check_availability salle date debut fin) pannes d e
  = (if hd false pannes
     then mk_Bilan (Termine false) d (tl pannes) (e ++ [ErreurRequete])
     else mk_Bilan (Termine (fn_SalleDisponible d salle date debut fin)) d
            (tl pannes) e,
     []).
Proof.
  unfold check_availability. rewrite suivre_query.
  destruct (hd false pannes); reflexivity.
Qed.

(** ** What the reservation page sends to the store *)

(** X1: whatever the stored procedure does, a run of [reservation_page]
    sends nothing and leaves the database as it is, or sends exactly one
    call, of [sp_ReserverSalle] with the session's user, the selected
    room and type, the stripped subject, the date, the two times and 0;
    and it sends it only when the form is shown and submitted, the
    subject is not blank, the end time is after the start time and
    [check_availability] has just answered true. *)
Theorem reservation_page_appel (sem : Semantique) (user : User) (f : Formulaire)
    (pannes : list bool) (d : DB) (e : list Message) :
  (snd (suivre sem (reservation_page user f) pannes d e) = []
   /\ base (fst (suivre sem (reservation_page user f) pannes d e)) = d)
  \/ (snd (suivre sem (reservation_page user f) pannes d e)
      = [(sp_ReserverSalle,
          [VInt (UserID user); VInt (salle_selected f); VInt (type_selected f);
           VStr (strip (objet_reunion f)); VDate (date_reservation f);
           VTime (heure_debut f); VTime (heure_fin f); VInt 0])]
      /\ formulaire_affiche pannes d /\ submit f = true
      /\ str_vide (strip (objet_reunion f)) = false
      /\ time_ltb (heure_debut f) (heure_fin f) = true
      /\ hd false (tl (tl pannes)) = false
      /\ fn_SalleDisponible d (salle_selected f) (date_reservation f)
           (heure_debut f) (heure_fin f) = true).
Proof.
  unfold reservation_page, get_salles, get_types_evenements.
  rewrite !suivre_query.
  destruct (hd false pannes) eqn:E1.
  { left. cbn [df_empty orb]. split; reflexivity. }
  destruct (hd false (tl pannes)) eqn:E2.
  { left. cbn [df_empty]. rewrite orb_true_r. split; reflexivity. }
  destruct (df_empty (q_salles d)) eqn:E3; [left; split; reflexivity|].
  destruct (df_empty (q_types_evenements d)) eqn:E4; [left; split; reflexivity|].
  cbn [orb]. destruct (submit f) eqn:E5; [|left; split; reflexivity].
  unfold soumettre.
  destruct (str_vide (strip (objet_reunion f))) eqn:E6;
    [left; split; reflexivity|].
  rewrite time_leb_ltb.
  destruct (time_ltb (heure_debut f) (heure_fin f)) eqn:E7;
    [|left; split; reflexivity].
  cbn [negb]. rewrite suivre_bind, suivre_check_availability.
  destruct (hd false (tl (tl pannes))) eqn:E8; [left; split; reflexivity|].
  cbn [fst snd issue pannes_restantes base ecran app].
  destruct (fn_SalleDisponible d _ _ _ _) eqn:E9; [|left; split; reflexivity].
  right. cbn [negb]. unfold reserver. rewrite suivre_procedure.
  cbn [snd].
  destruct (fst (executer_avec sem _ _ _ d)); cbn;
    (split; [reflexivity | repeat split; assumption]).
Qed.

(** ** What the listing pages send to the store *)

Lemma q_reservations_user_ligne user_id d row :
  In row (q_reservations_user user_id d) ->
  exists r, In r (Reservations d) /\ r_UserID r = user_id
            /\ lu_ReservationID row = r_ReservationID r
            /\ lu_ObjetReunion row = r_ObjetReunion r
            /\ lu_DateReservation row = r_DateReservation r
            /\ lu_HeureDebut row = r_HeureDebut r
            /\ lu_HeureFin row = r_HeureFin r
            /\ lu_Statut row = r_Statut r.
Proof.
  unfold q_reservations_user. intros H.
  apply (Permutation_in _ (order_by_perm _ _)) in H.
  apply in_flat_map in H as (r & Hr & H).
  apply in_flat_map in H as (s & _ & H).
  apply in_flat_map in H as (te & _ & [<- | []]).
  apply filter_In in Hr as [Hr Hu]. apply Z.eqb_eq in Hu.
  exists r. repeat split; assumption.
Qed.

Lemma suivre_boucle_mes_reservations sem user clic rows pannes d e :
  base (fst (suivre sem (boucle_mes_reservations user clic rows) pannes d e)) = d
  \/ issue (fst (suivre sem (boucle_mes_reservations user clic rows) pannes d e))
     = Relance.
Proof.
  revert pannes e. induction rows as [|row t IH]; intros pannes e.
  - left. reflexivity.
  - cbn [boucle_mes_reservations].
    destruct (existsb (Statut_eqb (lu_Statut row)) [EnAttente; Validee]);
      [|cbn [bind]; apply IH].
    destruct (bouton Z.eqb clic (lu_ReservationID row)); [|cbn [bind]; apply IH].
    rewrite suivre_bind, suivre_procedure. cbn [fst snd].
    destruct (fst (executer_avec sem _ _ (hd false pannes) d)) as [x|] eqn:Ex.
    + rewrite (executer_avec_echec _ _ _ _ _ _ Ex). cbn [suivre fst issue].
      cbn [pannes_restantes base ecran]. apply IH.
    + right. reflexivity.
Qed.

Lemma journal_boucle_mes_reservations sem user clic rows pannes d e a :
  In a (snd (suivre sem (boucle_mes_reservations user clic rows) pannes d e)) ->
  exists row,
    In row rows /\ clic = Some (lu_ReservationID row)
    /\ actif (lu_Statut row) = true
    /\ a = (sp_AnnulerReservation,
            [VInt (UserID user); VInt (lu_ReservationID row)]).
Proof.
  revert pannes e. induction rows as [|row t IH]; intros pannes e H.
  - destruct H.
  - cbn [boucle_mes_reservations] in H. rewrite statut_annulable in H.
    assert (Hsuite : forall p' e',
              In a (snd (suivre sem (boucle_mes_reservations user clic t) p' d e')) ->
              exists row0,
                In row0 (row :: t) /\ clic = Some (lu_ReservationID row0)
                /\ actif (lu_Statut row0) = true
                /\ a = (sp_AnnulerReservation,
                        [VInt (UserID user); VInt (lu_ReservationID row0)])).
    { intros p' e' H'. destruct (IH p' e' H') as (row0 & Hin & Hrest).
      exists row0. split; [right; exact Hin | exact Hrest]. }
    destruct (actif (lu_Statut row)) eqn:Ea; [|cbn [bind] in H; eauto].
    destruct (bouton Z.eqb clic (lu_ReservationID row)) eqn:Eb;
      [|cbn [bind] in H; eauto].
    rewrite suivre_bind, suivre_procedure in H. cbn [fst snd] in H.
    assert (Hclic : clic = Some (lu_ReservationID row)).
    { destruct clic as [c|]; [|discriminate Eb]. cbn in Eb.
      apply Z.eqb_eq in Eb. congruence. }
    destruct (fst (executer_avec sem _ _ (hd false pannes) d)) as [x|] eqn:Ex.
    + rewrite (executer_avec_echec _ _ _ _ _ _ Ex) in H.
      cbn [suivre fst snd issue pannes_restantes base ecran app] in H.
      destruct H as [<- | H]; [|eauto].
      exists row. repeat split; try assumption. left. reflexivity.
    + cbn in H. destruct H as [<- | []].
      exists row. repeat split; try assumption. left. reflexivity.
Qed.

(** X2: whatever the stored procedure does, every call a run of
    [mes_reservations_page] sends is [sp_AnnulerReservation] with the
    session's user and the clicked reservation, and that reservation is
    one of this user's, pending or approved when the page read it; without
    a click nothing is sent; and the database is left as it was unless the
    run ends at the rerun that follows a successful call. *)
Theorem mes_reservations_page_appels (sem : Semantique) (user : User)
    (filtre : option Statut) (clic : option Z) (pannes : list bool) (d : DB)
    (e : list Message) :
  (forall a,
     In a (snd (suivre sem (mes_reservations_page user filtre clic) pannes d e)) ->
     exists id r,
       clic = Some id
       /\ a = (sp_AnnulerReservation, [VInt (UserID user); VInt id])
       /\ In r (Reservations d) /\ r_ReservationID r = id
       /\ r_UserID r = UserID user /\ actif (r_Statut r) = true)
  /\ (base (fst (suivre sem (mes_reservations_page user filtre clic) pannes d e))
      = d
      \/ issue (fst (suivre sem (mes_reservations_page user filtre clic)
                       pannes d e)) = Relance).
Proof.
  unfold mes_reservations_page, get_reservations_user. rewrite suivre_query.
  destruct (hd false pannes).
  { split; [intros a []|]. left. reflexivity. }
  destruct (df_empty (q_reservations_user (UserID user) d)).
  { split; [intros a []|]. left. reflexivity. }
  split; [|apply suivre_boucle_mes_reservations].
  intros a Ha. apply journal_boucle_mes_reservations in Ha
    as (row & Hin & Hc & Hact & ->).
  assert (Hin' : In row (q_reservations_user (UserID user) d)).
  { destruct filtre as [st|]; [|exact Hin]. apply filter_In in Hin. apply Hin. }
  apply q_reservations_user_ligne in Hin'
    as (r & Hr & Hu & Hid & _ & _ & _ & _ & Hs).
  exists (lu_ReservationID row), r. repeat split; try assumption.
  - symmetry. exact Hid.
  - rewrite <- Hs. exact Hact.
Qed.

Lemma suivre_boucle_validation sem user clic c rows pannes d e :
  base (fst (suivre sem (boucle_validation user clic c rows) pannes d e)) = d
  \/ issue (fst (suivre sem (boucle_validation user clic c rows) pannes d e))
     = Relance.
Proof.
  revert pannes e. induction rows as [|row t IH]; intros pannes e.
  - left. reflexivity.
  - cbn [boucle_validation].
    destruct (bouton cle_eqb clic (Valider, lp_ReservationID row)).
    + rewrite suivre_bind, suivre_procedure. cbn [fst snd].
      destruct (fst (executer_avec sem _ _ (hd false pannes) d)) as [x|] eqn:Ex.
      * rewrite (executer_avec_echec _ _ _ _ _ _ Ex).
        cbn [suivre fst issue pannes_restantes base ecran].
        destruct (bouton cle_eqb clic (Refuser, lp_ReservationID row)).
        -- rewrite suivre_bind, suivre_procedure. cbn [fst snd].
           destruct (fst (executer_avec sem _ _ (hd false (tl pannes)) d))
             as [y|] eqn:Ey.
           ++ rewrite (executer_avec_echec _ _ _ _ _ _ Ey).
              cbn [suivre fst issue pannes_restantes base ecran]. apply IH.
           ++ right. reflexivity.
        -- cbn [bind]. apply IH.
      * right. reflexivity.
    + cbn [bind].
      destruct (bouton cle_eqb clic (Refuser, lp_ReservationID row)).
      * rewrite suivre_bind, suivre_procedure. cbn [fst snd].
        destruct (fst (executer_avec sem _ _ (hd false pannes) d)) as [y|] eqn:Ey.
        -- rewrite (executer_avec_echec _ _ _ _ _ _ Ey).
           cbn [suivre fst issue pannes_restantes base ecran]. apply IH.
        -- right. reflexivity.
      * cbn [bind]. apply IH.
Qed.

Lemma bouton_cle clic k : bouton cle_eqb clic k = true -> clic = Some k.
Proof.
  destruct clic as [[b id]|]; [|discriminate]. destruct k as [b' id'].
  unfold bouton, cle_eqb. cbn [fst snd].
  destruct b, b'; try discriminate; intros H; apply Z.eqb_eq in H; congruence.
Qed.

Lemma journal_boucle_validation sem user clic c rows pannes d e a :
  In a (snd (suivre sem (boucle_validation user clic c rows) pannes d e)) ->
  exists row b,
    In row rows /\ clic = Some (b, lp_ReservationID row)
    /\ a = appel_validation user b (lp_ReservationID row)
             (c (lp_ReservationID row)).
Proof.
  revert pannes e. induction rows as [|row t IH]; intros pannes e H.
  - destruct H.
  - assert (Hsuite : forall p' e',
              In a (snd (suivre sem (boucle_validation user clic c t) p' d e')) ->
              exists row0 b,
                In row0 (row :: t) /\ clic = Some (b, lp_ReservationID row0)
                /\ a = appel_validation user b (lp_ReservationID row0)
                         (c (lp_ReservationID row0))).
    { intros p' e' H'. destruct (IH p' e' H') as (row0 & b & Hin & Hrest).
      exists row0, b. split; [right; exact Hin | exact Hrest]. }
    assert (Hrefus : forall p' e',
              In a (snd (suivre sem
                           ((if bouton cle_eqb clic (Refuser, lp_ReservationID row)
                             then
                               ok <- execute_procedure sp_AnnulerReservation
                                       [VInt (UserID user);
                                        VInt (lp_ReservationID row);
                                        VStr (commentaire_refus
                                                (c (lp_ReservationID row)))] ;;
                               if ok then st_success ReservationRefusee ;;; st_rerun
                               else Ret tt
                             else Ret tt) ;;;
                            boucle_validation user clic c t) p' d e')) ->
              exists row0 b,
                In row0 (row :: t) /\ clic = Some (b, lp_ReservationID row0)
                /\ a = appel_validation user b (lp_ReservationID row0)
                         (c (lp_ReservationID row0))).
    { intros p' e' H'.
      destruct (bouton cle_eqb clic (Refuser, lp_ReservationID row)) eqn:Eb;
        [|cbn [bind] in H'; eauto].
      apply bouton_cle in Eb.
      rewrite suivre_bind, suivre_procedure in H'. cbn [fst snd] in H'.
      destruct (fst (executer_avec sem _ _ (hd false p') d)) as [x|] eqn:Ex.
      - rewrite (executer_avec_echec _ _ _ _ _ _ Ex) in H'.
        cbn [suivre fst snd issue pannes_restantes base ecran app] in H'.
        destruct H' as [<- | H']; [|eauto].
        exists row, Refuser. repeat split; [left; reflexivity | exact Eb].
      - cbn in H'. destruct H' as [<- | []].
        exists row, Refuser. repeat split; [left; reflexivity | exact Eb]. }
    cbn [boucle_validation] in H.
    destruct (bouton cle_eqb clic (Valider, lp_ReservationID row)) eqn:Eb;
      [|cbn [bind] in H; apply (Hrefus pannes e); exact H].
    apply bouton_cle in Eb.
    rewrite suivre_bind, suivre_procedure in H. cbn [fst snd] in H.
    destruct (fst (executer_avec sem _ _ (hd false pannes) d)) as [x|] eqn:Ex.
    + rewrite (executer_avec_echec _ _ _ _ _ _ Ex) in H.
      cbn [suivre fst snd issue pannes_restantes base ecran app] in H.
      destruct H as [<- | H].
      * exists row, Valider. repeat split; [left; reflexivity | exact Eb].
      * apply (Hrefus _ _ H).
    + cbn in H. destruct H as [<- | []].
      exists row, Valider. repeat split; [left; reflexivity | exact Eb].
Qed.

(** X3: whatever the stored procedures do, a run of [validation_page] sends
    a call only for a session whose role is Manager or Admin, and every
    call is the one of the clicked button ("Valider":
    [sp_ValiderReservation] with the comment or NULL when it is empty;
    "Refuser": [sp_AnnulerReservation] with the refusal comment) for a
    reservation that was 'EnAttente' when the page read it, with the
    session's user as actor; the database is left as it was unless the run
    ends at the rerun that follows a successful call. *)
Theorem validation_page_appels (sem : Semantique) (user : User)
    (clic : option (Bouton * Z)) (commentaires : Z -> str)
    (pannes : list bool) (d : DB) (e : list Message) :
  (forall a,
     In a (snd (suivre sem (validation_page user clic commentaires) pannes d e)) ->
     str_in (Role user) [lit "Manager"; lit "Admin"] = true
     /\ exists b id r,
          clic = Some (b, id)
          /\ a = appel_validation user b id (commentaires id)
          /\ In r (Reservations d) /\ r_ReservationID r = id
          /\ r_Statut r = EnAttente)
  /\ (base (fst (suivre sem (validation_page user clic commentaires) pannes d e))
      = d
      \/ issue (fst (suivre sem (validation_page user clic commentaires)
                       pannes d e)) = Relance).
Proof.
  unfold validation_page.
  destruct (str_in (Role user) [lit "Manager"; lit "Admin"]).
  2:{ split; [intros a []|]. left. reflexivity. }
  cbn [negb]. unfold get_reservations_pending. rewrite suivre_query.
  destruct (hd false pannes).
  { split; [intros a []|]. left. reflexivity. }
  destruct (df_empty (q_reservations_pending d)).
  { split; [intros a []|]. left. reflexivity. }
  split; [|apply suivre_boucle_validation].
  intros a Ha. split; [reflexivity|].
  apply journal_boucle_validation in Ha as (row & b & Hin & Hc & ->).
  apply q_reservations_pending_origine in Hin as (r & Hr & Hs & Hid).
  exists b, (lp_ReservationID row), r. repeat split; try assumption.
  symmetry. exact Hid.
Qed.

(** ** Failure of the listing queries *)

(** X4: when its first query is not answered, each page reports the failure
    and then behaves as if the table were empty: "Mes réservations" tells
    the user there is no reservation, the validation page tells the
    manager nothing is pending, the reservation page cannot load its data
    and drops the submitted form; none of them sends a call or looks at
    the click, whatever the database holds. *)
Theorem pages_requete_en_panne (sem : Semantique) (user : User)
    (filtre : option Statut) (clic : option Z)
    (clic_v : option (Bouton * Z)) (commentaires : Z -> str) (f : Formulaire)
    (pannes : list bool) (d : DB) (e : list Message) :
  hd false pannes = true ->
  suivre sem (mes_reservations_page user filtre clic) pannes d e
  = (mk_Bilan (Termine tt) d (tl pannes)
       ((e ++ [ErreurRequete]) ++ [AucuneReservation]), [])
  /\ (str_in (Role user) [lit "Manager"; lit "Admin"] = true ->
      suivre sem (validation_page user clic_v commentaires) pannes d e
      = (mk_Bilan (Termine tt) d (tl pannes)
           ((e ++ [ErreurRequete]) ++ [AucuneEnAttente]), []))
  /\ snd (suivre sem (reservation_page user f) pannes d e) = []
  /\ base (fst (suivre sem (reservation_page user f) pannes d e)) = d
  /\ exists avant,
       ecran (fst (suivre sem (reservation_page user f) pannes d e))
       = avant ++ [ImpossibleCharger].
Proof.
  intros Hp. split; [|split].
  - unfold mes_reservations_page, get_reservations_user.
    rewrite suivre_query, Hp. reflexivity.
  - intros Hr. unfold validation_page. rewrite Hr. cbn [negb].
    unfold get_reservations_pending. rewrite suivre_query, Hp. reflexivity.
  - unfold reservation_page, get_salles, get_types_evenements.
    rewrite !suivre_query, Hp. cbn [df_empty orb].
    repeat split. eexists. reflexivity.
Qed.

Lemma pages_requete_en_panne_temoin :
  suivre sem_refus (mes_reservations_page (session alice) None (Some 1)) [true]
    base_exemple []
  = (mk_Bilan (Termine tt) base_exemple (tl [true])
       (([] ++ [ErreurRequete]) ++ [AucuneReservation]), [])
  /\ In 1 (map r_UserID (Reservations base_exemple)).
Proof.
  split.
  - apply (pages_requete_en_panne sem_refus (session alice) None (Some 1) None
             (fun _ => []) (demande (h 9 0) (h 10 0) []) [true] base_exemple []).
    reflexivity.
  - left. reflexivity.
Defined.

(** ** The catalogue and listing queries *)

Section Tri.
Context {A : Type} (cmp : A -> A -> bool).
Hypothesis cmp_total : forall a b, cmp a b = true \/ cmp b a = true.
Hypothesis cmp_trans : forall a b c, cmp a b = true -> cmp b c = true -> cmp a c = true.

Lemma insere_trie_cmp (x : A) (l : list A) :
  StronglySorted (fun a b => cmp a b = true) l ->
  StronglySorted (fun a b => cmp a b = true) (insere cmp x l).
Proof.
  induction l as [|y t IH]; intros Hs; simpl.
  - constructor; constructor.
  - apply StronglySorted_inv in Hs as [Ht Hy].
    destruct (cmp x y) eqn:Exy.
    + constructor; [constructor; assumption|].
      constructor; [exact Exy|].
      rewrite Forall_forall in Hy |- *. intros z Hz.
      apply (cmp_trans x y z Exy), Hy, Hz.
    + constructor; [apply IH, Ht|].
      rewrite Forall_forall in Hy |- *. intros z Hz.
      apply (Permutation_in z (insere_perm cmp x t)) in Hz.
      destruct Hz as [<- | Hz]; [|apply Hy, Hz].
      destruct (cmp_total x y) as [H | H]; [congruence | exact H].
Qed.

Lemma order_by_trie_cmp (l : list A) :
  StronglySorted (fun a b => cmp a b = true) (order_by cmp l).
Proof.
  induction l as [|x t IH]; simpl; [constructor|].
  apply insere_trie_cmp, IH.
Qed.
End Tri.

Lemma time_leb_iff (a b : time) :
  time_leb a b = true
  <-> (hour a < hour b \/ (hour a = hour b /\ minute a <= minute b))%nat.
Proof.
  unfold time_leb.
  rewrite orb_true_iff, andb_true_iff, Nat.ltb_lt, Nat.eqb_eq, Nat.leb_le.
  reflexivity.
Qed.

Lemma cmp_user_iff (a b : LigneUser) :
  (lu_DateReservation b <? lu_DateReservation a)
  || ((lu_DateReservation a =? lu_DateReservation b)
      && time_leb (lu_HeureDebut b) (lu_HeureDebut a)) = true
  <-> avant_user a b.
Proof.
  unfold avant_user.
  rewrite orb_true_iff, andb_true_iff, Z.ltb_lt, Z.eqb_eq. reflexivity.
Qed.

Lemma StronglySorted_impl {A : Type} (R S : A -> A -> Prop) (l : list A) :
  (forall a b, R a b -> S a b) -> StronglySorted R l -> StronglySorted S l.
Proof.
  intros H. induction 1 as [|x t Ht IH Hx]; constructor; [exact IH|].
  rewrite Forall_forall in Hx |- *. intros z Hz. apply H, Hx, Hz.
Qed.

Lemma jointure_user (d : DB) (l : list Reservation) :
  cles_etrangeres d = true ->
  (forall r, In r l -> In r (Reservations d)) ->
  map colonnes_user
    (flat_map (fun r =>
       flat_map (fun s =>
         flat_map (fun te =>
           [mk_LigneUser (r_ReservationID r) (s_NomSalle s) (r_ObjetReunion r)
              (r_DateReservation r) (r_HeureDebut r) (r_HeureFin r)
              (r_Statut r) (t_NomType te)])
           (filter (fun te => r_TypeID r =? t_TypeID te) (TypesEvenements d)))
         (filter (fun s => r_SalleID r =? s_SalleID s) (Salles d))) l)
  = map colonnes_reservation_user l.
Proof.
  intros Hk. unfold cles_etrangeres in Hk. rewrite forallb_forall in Hk.
  induction l as [|r t IH]; intros Hin; [reflexivity|].
  cbn [flat_map]. rewrite map_app, IH by (intros x Hx; apply Hin; right; exact Hx).
  specialize (Hk r (Hin r (or_introl eq_refl))).
  apply andb_true_iff in Hk as [Hk Ht]. apply andb_true_iff in Hk as [_ Hs].
  apply longueur_un in Hs as [s ->]. apply longueur_un in Ht as [te ->].
  reflexivity.
Qed.

(** X5: when the query is answered, [get_salles] returns exactly the rooms
    whose [Disponible] is 1 and [get_types_evenements] exactly the event
    types, each row once; when it is not, each returns the empty DataFrame
    after the error message.  A room that is not available is never
    offered. *)
Theorem catalogues_exacts (pannes : list bool) (d : DB) (e : list Message) :
  (hd false pannes = false ->
   exists salles types,
     run get_salles pannes d e = mk_Bilan (Termine salles) d (tl pannes) e
     /\ Permutation salles (filter s_Disponible (Salles d))
     /\ (forall s, In s salles -> s_Disponible s = true)
     /\ run get_types_evenements pannes d e
        = mk_Bilan (Termine types) d (tl pannes) e
     /\ Permutation types (TypesEvenements d))
  /\ (hd false pannes = true ->
      run get_salles pannes d e
      = mk_Bilan (Termine []) d (tl pannes) (e ++ [ErreurRequete])
      /\ run get_types_evenements pannes d e
         = mk_Bilan (Termine []) d (tl pannes) (e ++ [ErreurRequete])).
Proof.
  unfold get_salles, get_types_evenements. rewrite !run_execute_query.
  split; intros ->.
  - exists (q_salles d), (q_types_evenements d).
    split; [reflexivity|]. split; [apply order_by_perm|]. split.
    + intros s Hs. apply (Permutation_in _ (order_by_perm _ _)) in Hs.
      apply filter_In in Hs. apply Hs.
    + split; [reflexivity | apply order_by_perm].
  - split; reflexivity.
Qed.

(** X6: when the query is answered, every row [get_reservations_user]
    returns carries the columns of a reservation of that user, the rows
    come latest date first and, within a date, latest start first; with
    the foreign keys of the schema the rows are exactly that user's
    reservations, each once. *)
Theorem get_reservations_user_spec (user_id : Z) (pannes : list bool) (d : DB)
    (e : list Message) :
  hd false pannes = false ->
  exists rows,
    run (get_reservations_user user_id) pannes d e
    = mk_Bilan (Termine rows) d (tl pannes) e
    /\ (forall row, In row rows ->
          exists r, In r (Reservations d) /\ r_UserID r = user_id
                    /\ colonnes_user row = colonnes_reservation_user r)
    /\ StronglySorted avant_user rows
    /\ (cles_etrangeres d = true ->
        Permutation (map colonnes_user rows)
          (map colonnes_reservation_user
             (filter (fun r => r_UserID r =? user_id) (Reservations d)))).
Proof.
  intros Hp. exists (q_reservations_user user_id d).
  unfold get_reservations_user. rewrite run_execute_query, Hp.
  split; [reflexivity|]. split; [|split].
  - intros row Hin. apply q_reservations_user_ligne in Hin
      as (r & Hr & Hu & H1 & H2 & H3 & H4 & H5 & H6).
    exists r. split; [exact Hr|]. split; [exact Hu|].
    unfold colonnes_user, colonnes_reservation_user. congruence.
  - unfold q_reservations_user.
    eapply StronglySorted_impl; [|apply order_by_trie_cmp].
    + intros a b H. apply cmp_user_iff. exact H.
    + intros a b.
      destruct (Z.lt_total (lu_DateReservation a) (lu_DateReservation b))
        as [H | [H | H]].
      * right. apply cmp_user_iff. left. exact H.
      * assert (Ht : time_leb (lu_HeureDebut a) (lu_HeureDebut b) = true
                     \/ time_leb (lu_HeureDebut b) (lu_HeureDebut a) = true)
          by (rewrite !time_leb_iff; lia).
        destruct Ht as [Ht | Ht].
        -- right. apply cmp_user_iff. right. split; [symmetry|]; assumption.
        -- left. apply cmp_user_iff. right. split; assumption.
      * left. apply cmp_user_iff. left. exact H.
    + intros a b c Hab Hbc. apply cmp_user_iff in Hab, Hbc. apply cmp_user_iff.
      unfold avant_user in *. rewrite !time_leb_iff in *. lia.
  - intros Hk. unfold q_reservations_user.
    eapply perm_trans; [apply Permutation_map, order_by_perm|].
    rewrite (jointure_user d _ Hk); [apply Permutation_refl|].
    intros r Hr. apply filter_In in Hr. apply Hr.
Qed.

Lemma get_reservations_user_spec_temoin :
  exists rows,
    run (get_reservations_user 1) [] base_exemple []
    = mk_Bilan (Termine rows) base_exemple (tl []) []
    /\ (forall row, In row rows ->
          exists r, In r (Reservations base_exemple) /\ r_UserID r = 1
                    /\ colonnes_user row = colonnes_reservation_user r)
    /\ StronglySorted avant_user rows
    /\ (cles_etrangeres base_exemple = true ->
        Permutation (map colonnes_user rows)
          (map colonnes_reservation_user
             (filter (fun r => r_UserID r =? 1) (Reservations base_exemple)))).
Proof.
  apply (get_reservations_user_spec 1 [] base_exemple []). reflexivity.
Defined.

(** ** Authentication and navigation *)

Lemma q_authenticate_ligne egal email password d user :
  In user (q_authenticate egal email password d) ->
  exists u, In u (Utilisateurs d)
            /\ egal (u_Email u) email = true
            /\ egal (u_MotDePasse u) password = true
            /\ u_Actif u = true /\ user = session u.
Proof.
  unfold q_authenticate. intros H.
  apply in_map_iff in H as (u & <- & Hu).
  apply filter_In in Hu as [Hin Hu].
  apply andb_true_iff in Hu as [Hu Ha]. apply andb_true_iff in Hu as [He Hm].
  exists u. repeat split; assumption.
Qed.

Lemma run_authenticate_user egal email password pannes d e :
  run (authenticate_user egal email password) pannes d e
  = mk_Bilan
      (Termine (if hd false pannes then None
                else match q_authenticate egal email password d with
                     | row :: _ => Some row
                     | [] => None
                     end))
      d (tl pannes) (if hd false pannes then e ++ [ErreurRequete] else e).
Proof.
  unfold authenticate_user. rewrite run_query.
  destruct (hd false pannes); reflexivity.
Qed.

(** X7: [authenticate_user] returns a user only when the query is answered
    and some row of [Utilisateurs] has that e-mail, that very password
    (compared as typed, without hashing) and [Actif] = 1, and the user it
    returns is such a row; it returns one whenever such a row exists and
    the query is answered, and [None] when the query fails. An inactive
    account never authenticates. *)
Theorem authenticate_user_spec (egal : str -> str -> bool) (email password : str)
    (pannes : list bool) (d : DB) (e : list Message) :
  exists r,
    issue (run (authenticate_user egal email password) pannes d e) = Termine r
    /\ base (run (authenticate_user egal email password) pannes d e) = d
    /\ (hd false pannes = true -> r = None)
    /\ (forall user, r = Some user ->
          exists u, In u (Utilisateurs d)
                    /\ egal (u_Email u) email = true
                    /\ egal (u_MotDePasse u) password = true
                    /\ u_Actif u = true /\ user = session u)
    /\ (hd false pannes = false ->
        (exists u, In u (Utilisateurs d)
                   /\ egal (u_Email u) email = true
                   /\ egal (u_MotDePasse u) password = true
                   /\ u_Actif u = true) ->
        r <> None).
Proof.
  rewrite run_authenticate_user. eexists. split; [reflexivity|].
  split; [reflexivity|]. split; [|split].
  - intros ->. reflexivity.
  - intros user. destruct (hd false pannes); [discriminate|].
    destruct (q_authenticate egal email password d) as [|row rest] eqn:Eq;
      [discriminate|].
    intros H. injection H as <-.
    apply (q_authenticate_ligne egal email password d). rewrite Eq.
    left. reflexivity.
  - intros -> (u & Hin & He & Hm & Ha).
    assert (Hrow : In (session u) (q_authenticate egal email password d)).
    { unfold q_authenticate. apply in_map, filter_In. split; [exact Hin|].
      rewrite He, Hm, Ha. reflexivity. }
    destruct (q_authenticate egal email password d); [destruct Hrow|].
    discriminate.
Qed.

(** X8: [login_page] queries nothing when the form is not submitted or when
    the e-mail or the password is empty ("Veuillez remplir tous les
    champs"); it never changes the database; it opens a session only for
    a row of [Utilisateurs] that is active and matches the e-mail and
    password; and when the query fails it answers "Email ou mot de passe
    incorrect" whatever the credentials. *)
Theorem login_page_spec (egal : str -> str -> bool) (email password : str)
    (submit : bool) (pannes : list bool) (d : DB) (e : list Message) :
  (submit = false -> login_page egal email password submit = Ret Attente)
  /\ (submit = true -> email = [] \/ password = [] ->
      login_page egal email password submit = Ret ChampsVides)
  /\ base (run (login_page egal email password submit) pannes d e) = d
  /\ (forall user,
        issue (run (login_page egal email password submit) pannes d e)
        = Termine (Connecte user) ->
        submit = true /\ email <> [] /\ password <> []
        /\ hd false pannes = false
        /\ exists u, In u (Utilisateurs d)
                     /\ egal (u_Email u) email = true
                     /\ egal (u_MotDePasse u) password = true
                     /\ u_Actif u = true /\ user = session u)
  /\ (submit = true -> email <> [] -> password <> [] ->
      hd false pannes = true ->
      issue (run (login_page egal email password submit) pannes d e)
      = Termine Incorrect).
Proof.
  split; [intros ->; reflexivity|]. split.
  { intros -> [-> | ->]; [reflexivity|]. unfold login_page.
    destruct (str_vide email); reflexivity. }
  unfold login_page.
  destruct submit.
  2:{ cbn. repeat split; try discriminate. }
  destruct email as [|c1 m]; [cbn; repeat split; try discriminate; congruence|].
  destruct password as [|c2 p]; [cbn; repeat split; try discriminate; congruence|].
  cbn [str_vide negb andb].
  rewrite run_bind, run_authenticate_user.
  cbn [issue base pannes_restantes ecran].
  destruct (hd false pannes) eqn:Hp.
  { cbn. repeat split; try discriminate. }
  destruct (q_authenticate egal (c1 :: m) (c2 :: p) d) as [|row rest] eqn:Eq.
  { cbn. repeat split; try discriminate. }
  cbn. split; [reflexivity|]. split; [|intros; discriminate].
  intros user H. injection H as <-.
  repeat split; try discriminate.
  apply (q_authenticate_ligne egal (c1 :: m) (c2 :: p) d). rewrite Eq.
  left. reflexivity.
Qed.

(** X9: without a session, [main] renders the login page and nothing else:
    whatever the widgets hold and whatever the procedures do, it sends no
    call and leaves the database as it is, and the session after the run
    is absent unless an active row of [Utilisateurs] matches the e-mail
    and password, in which case the session is that row. *)
Theorem main_sans_session (sem : Semantique) (egal : str -> str -> bool)
    (today : Z) (x : Entrees) (pannes : list bool) (d : DB) (e : list Message) :
  snd (suivre sem (main egal today None x) pannes d e) = []
  /\ base (fst (suivre sem (main egal today None x) pannes d e)) = d
  /\ exists i,
       issue (fst (suivre sem (main egal today None x) pannes d e))
       = Termine (match i with Connecte u => Some u | _ => None end, V_login i)
       /\ forall user, i = Connecte user ->
            exists u, In u (Utilisateurs d)
                      /\ egal (u_Email u) (x_email x) = true
                      /\ egal (u_MotDePasse u) (x_password x) = true
                      /\ u_Actif u = true /\ user = session u.
Proof.
  unfold main, login_page.
  destruct (x_connexion x).
  2:{ cbn. repeat split. exists Attente. split; [reflexivity | discriminate]. }
  destruct (negb (str_vide (x_email x)) && negb (str_vide (x_password x))).
  2:{ cbn. repeat split. exists ChampsVides. split; [reflexivity | discriminate]. }
  unfold authenticate_user. rewrite suivre_bind, suivre_bind, suivre_query.
  destruct (hd false pannes).
  { cbn. repeat split. exists Incorrect. split; [reflexivity | discriminate]. }
  destruct (q_authenticate egal (x_email x) (x_password x) d)
    as [|row rest] eqn:Eq.
  { cbn. repeat split. exists Incorrect. split; [reflexivity | discriminate]. }
  cbn. repeat split. exists (Connecte row). split; [reflexivity|].
  intros user H. injection H as <-.
  apply (q_authenticate_ligne egal (x_email x) (x_password x) d). rewrite Eq.
  left. reflexivity.
Qed.

(** X10: with a session, [main] ends the session and runs no page when the
    logout button is pressed; otherwise each option of the menu leads to
    its own page and to no other, and the validation page is reached
    from the menu only by a user whose role is Manager or Admin. *)
Theorem main_navigation (egal : str -> str -> bool) (today : Z) (user : User)
    (x : Entrees) :
  (x_deconnexion x = true ->
   main egal today (Some user) x = Ret (None, V_deconnexion))
  /\ (x_deconnexion x = false -> In (x_choice x) (menu_options user) ->
      (x_choice x = menu_tableau
       /\ main egal today (Some user) x
          = (t <- tableau_bord_page today ;; Ret (Some user, V_tableau t)))
      \/ (x_choice x = menu_nouvelle
          /\ main egal today (Some user) x
             = (reservation_page user (x_formulaire x) ;;;
                Ret (Some user, V_page)))
      \/ (x_choice x = menu_mes
          /\ main egal today (Some user) x
             = (mes_reservations_page user (x_statut_filter x) (x_annuler x) ;;;
                Ret (Some user, V_page)))
      \/ (x_choice x = menu_validation
          /\ str_in (Role user) [lit "Manager"; lit "Admin"] = true
          /\ main egal today (Some user) x
             = (validation_page user (x_validation x) (x_commentaires x) ;;;
                Ret (Some user, V_page)))).
Proof.
  split.
  - intros H. unfold main. rewrite H. reflexivity.
  - intros Hd Hin. unfold main. rewrite Hd. unfold menu_options in Hin.
    apply in_app_or in Hin as [Hin | Hin].
    + destruct Hin as [H | [H | [H | []]]]; rewrite <- H.
      * left. split; reflexivity.
      * right. left. split; reflexivity.
      * right. right. left. split; reflexivity.
    + destruct (str_in (Role user) [lit "Manager"; lit "Admin"]) eqn:Er;
        [|destruct Hin].
      destruct Hin as [H | []]. rewrite <- H.
      right. right. right. split; [reflexivity|]. split; reflexivity.
Qed.

Lemma main_navigation_temoin :
  main egal_exact 19876 (Some (session alice)) entrees_exemple
  = (mes_reservations_page (session alice) None (Some 1) ;;;
     Ret (Some (session alice), V_page)).
Proof.
  assert (Hin : In (x_choice entrees_exemple) (menu_options (session alice)))
    by (right; right; left; reflexivity).
  destruct (proj2 (main_navigation egal_exact 19876 (session alice)
                     entrees_exemple) eq_refl Hin)
    as [[H _] | [[H _] | [[_ H] | [H _]]]].
  - vm_compute in H. discriminate H.
  - vm_compute in H. discriminate H.
  - exact H.
  - vm_compute in H. discriminate H.
Defined.

(** ** The dashboard *)

Lemma filter_length_le {A : Type} (p q : A -> bool) (l : list A) :
  (forall x, p x = true -> q x = true) ->
  (length (filter p l) <= length (filter q l))%nat.
Proof.
  intros H. induction l as [|x t IH]; simpl; [lia|].
  destruct (p x) eqn:Ep.
  - rewrite (H x Ep). simpl. lia.
  - destruct (q x); simpl; lia.
Qed.

Lemma nodup_length_le {A : Type} (dec : forall a b : A, {a = b} + {a <> b})
    (l : list A) : (length (nodup dec l) <= length l)%nat.
Proof.
  induction l as [|x t IH]; simpl; [lia|].
  destruct (in_dec dec x t); simpl; lia.
Qed.

Lemma run_tableau_bord_page today pannes d e :
  issue (run (tableau_bord_page today) pannes d e)
  = Termine
      (mk_Tableau
         (premier_count (if hd false pannes then []
                         else q_reservations_today today d))
         (premier_count (if hd false (tl pannes) then []
                         else q_reservations_week today d))
         (premier_count (if hd false (tl (tl pannes)) then []
                         else q_salles_occupees today d))
         (Z.of_nat (length (if hd false (tl (tl (tl pannes))) then []
                            else q_salles d)))
         (graphique (if hd false (tl (tl (tl (tl pannes)))) then []
                     else q_reservations_stats d))
         (graphique (if hd false (tl (tl (tl (tl (tl pannes))))) then []
                     else q_salles_stats d)))
  /\ base (run (tableau_bord_page today) pannes d e) = d.
Proof.
  unfold tableau_bord_page, get_salles. rewrite !run_query. split; reflexivity.
Qed.

(** X11: the dashboard never changes the database and its four figures are
    never negative; when the queries are answered, today's approved
    reservations are at most those of the coming week (today to today+7),
    the rooms occupied now are at most today's approved reservations, and
    the total is the number of rooms whose [Disponible] is 1; a figure
    whose query fails is shown as 0. *)
Theorem tableau_bord_page_metriques (today : Z) (pannes : list bool) (d : DB)
    (e : list Message) :
  exists t,
    issue (run (tableau_bord_page today) pannes d e) = Termine t
    /\ base (run (tableau_bord_page today) pannes d e) = d
    /\ (0 <= reservations_today t /\ 0 <= reservations_week t
        /\ 0 <= salles_occupees t /\ 0 <= total_salles t)
    /\ (hd false pannes = false -> hd false (tl pannes) = false ->
        reservations_today t <= reservations_week t)
    /\ (hd false pannes = false -> hd false (tl (tl pannes)) = false ->
        salles_occupees t <= reservations_today t)
    /\ (hd false (tl (tl (tl pannes))) = false ->
        total_salles t = Z.of_nat (length (filter s_Disponible (Salles d))))
    /\ (hd false pannes = true -> reservations_today t = 0)
    /\ (hd false (tl pannes) = true -> reservations_week t = 0)
    /\ (hd false (tl (tl pannes)) = true -> salles_occupees t = 0)
    /\ (hd false (tl (tl (tl pannes))) = true -> total_salles t = 0).
Proof.
  destruct (run_tableau_bord_page today pannes d e) as [Hi Hb].
  eexists. split; [exact Hi|]. split; [exact Hb|].
  cbn [reservations_today reservations_week salles_occupees total_salles].
  split; [|split; [|split; [|split]]].
  - unfold q_reservations_today, q_reservations_week, q_salles_occupees.
    destruct (hd false pannes), (hd false (tl pannes)),
      (hd false (tl (tl pannes))), (hd false (tl (tl (tl pannes))));
      cbn [premier_count length]; lia.
  - intros -> ->. unfold q_reservations_today, q_reservations_week.
    cbn [premier_count]. apply inj_le, filter_length_le.
    intros r H. apply andb_true_iff in H as [Hd Hv]. apply Z.eqb_eq in Hd.
    rewrite Hv, andb_true_r. apply andb_true_iff.
    split; [apply Z.leb_le | apply Z.leb_le]; lia.
  - intros -> ->. unfold q_reservations_today, q_salles_occupees.
    cbn [premier_count]. apply inj_le.
    eapply Nat.le_trans; [apply nodup_length_le|].
    rewrite length_map. apply filter_length_le.
    intros r H. apply andb_true_iff in H as [H _].
    apply andb_true_iff in H as [H _]. exact H.
  - intros ->. f_equal. unfold q_salles.
    apply Permutation_length, order_by_perm.
  - repeat split; intros ->; reflexivity.
Qed.

Lemma somme_app {K : Type} (a b : list (K * Z)) :
  somme (a ++ b) = somme a + somme b.
Proof.
  unfold somme. induction a as [|x t IH]; simpl; [reflexivity|].
  rewrite IH. lia.
Qed.

Lemma repartition_statuts (l : list Reservation) :
  (length (filter (fun r => Statut_eqb (r_Statut r) EnAttente) l)
   + length (filter (fun r => Statut_eqb (r_Statut r) Validee) l)
   + length (filter (fun r => Statut_eqb (r_Statut r) Refusee) l)
   + length (filter (fun r => Statut_eqb (r_Statut r) Annulee) l)
   = length l)%nat.
Proof.
  induction l as [|r t IH]; [reflexivity|].
  cbn [filter]. destruct (r_Statut r); cbn [Statut_eqb length]; lia.
Qed.

(** The rows of the status chart: one per status that occurs, with the
    number of its reservations. *)
Lemma q_reservations_stats_spec (d : DB) :
  NoDup (map fst (q_reservations_stats d))
  /\ Forall (fun p => 1 <= snd p) (q_reservations_stats d)
  /\ somme (q_reservations_stats d)
     = Z.of_nat (length (filter (trente_jours d) (Reservations d))).
Proof.
  unfold q_reservations_stats.
  pose proof (repartition_statuts (filter (trente_jours d) (Reservations d)))
    as Hsum.
  cbn [flat_map].
  destruct (filter (fun r => Statut_eqb (r_Statut r) EnAttente) _) as [|a1 g1];
    destruct (filter (fun r => Statut_eqb (r_Statut r) Validee) _) as [|a2 g2];
    destruct (filter (fun r => Statut_eqb (r_Statut r) Refusee) _) as [|a3 g3];
    destruct (filter (fun r => Statut_eqb (r_Statut r) Annulee) _) as [|a4 g4];
    cbn [app map fst snd length] in *;
    (split; [repeat constructor; simpl; intuition discriminate|]);
    (split; [repeat constructor; cbn [snd]; lia|]);
    unfold somme; cbn [map fold_right snd]; lia.
Qed.

Lemma In_firstn {A : Type} (n : nat) (l : list A) (x : A) :
  In x (firstn n l) -> In x l.
Proof.
  revert l. induction n as [|n IH]; intros l H; [destruct H|].
  destruct l as [|y t]; [destruct H|]. cbn in H.
  destruct H as [<- | H]; [left; reflexivity | right; apply IH, H].
Qed.

Lemma StronglySorted_firstn {A : Type} (R : A -> A -> Prop) (n : nat)
    (l : list A) :
  StronglySorted R l -> StronglySorted R (firstn n l).
Proof.
  revert l. induction n as [|n IH]; intros l Hs; [constructor|].
  destruct l as [|x t]; [constructor|].
  apply StronglySorted_inv in Hs as [Ht Hx]. cbn. constructor; [apply IH, Ht|].
  rewrite Forall_forall in Hx |- *. intros z Hz. apply Hx, (In_firstn n t z Hz).
Qed.

(** The rows of the rooms chart: at most five, most reserved first, each a
    room of [Salles] with at least one approved reservation counted. *)
Lemma q_salles_stats_spec (d : DB) :
  (length (q_salles_stats d) <= 5)%nat
  /\ StronglySorted (fun a b => snd b <= snd a) (q_salles_stats d)
  /\ Forall (fun p => 1 <= snd p
                      /\ exists s, In s (Salles d) /\ s_NomSalle s = fst p)
            (q_salles_stats d).
Proof.
  unfold q_salles_stats. split; [apply firstn_le_length|]. split.
  - apply StronglySorted_firstn.
    eapply StronglySorted_impl;
      [|apply (order_by_trie_cmp (fun a b : str * Z => snd b <=? snd a))].
    + intros a b H. apply Z.leb_le. exact H.
    + intros a b. rewrite !Z.leb_le. lia.
    + intros a b c. rewrite !Z.leb_le. lia.
  - rewrite Forall_forall. intros p Hp.
    apply In_firstn in Hp.
    apply (Permutation_in _ (order_by_perm _ _)) in Hp.
    apply in_map_iff in Hp as (g & <- & Hg).
    apply nodup_In in Hg. cbn [fst snd]. split.
    + apply (count_occ_In groupe_eq_dec) in Hg. lia.
    + unfold lignes_salles_stats in Hg.
      apply in_flat_map in Hg as (r & _ & Hg).
      apply in_map_iff in Hg as (s & <- & Hs).
      apply filter_In in Hs as [Hs _]. exists s. split; [exact Hs | reflexivity].
Qed.

(** X12: when the dashboard draws the status chart, its rows are distinct
    statuses, each with at least one reservation, and their counts add up
    to the number of reservations whose date is not earlier than thirty
    days before the server clock (later dates, future ones included, are
    all counted: the query has no upper bound); when
    it draws the rooms chart, it has at most five rows, most reserved
    first, each a room of [Salles] with at least one reservation counted.
    A chart whose query fails or returns nothing is not drawn. *)
Theorem tableau_bord_page_graphiques (today : Z) (pannes : list bool) (d : DB)
    (e : list Message) :
  exists t,
    issue (run (tableau_bord_page today) pannes d e) = Termine t
    /\ (forall rows, reservations_stats t = Some rows ->
          hd false (tl (tl (tl (tl pannes)))) = false
          /\ NoDup (map fst rows) /\ Forall (fun p => 1 <= snd p) rows
          /\ somme rows
             = Z.of_nat (length (filter (trente_jours d) (Reservations d))))
    /\ (forall rows, salles_stats t = Some rows ->
          hd false (tl (tl (tl (tl (tl pannes))))) = false
          /\ (length rows <= 5)%nat
          /\ StronglySorted (fun a b => snd b <= snd a) rows
          /\ Forall (fun p => 1 <= snd p
                              /\ exists s, In s (Salles d)
                                           /\ s_NomSalle s = fst p) rows)
    /\ (filter (trente_jours d) (Reservations d) = [] ->
        reservations_stats t = None).
Proof.
  destruct (run_tableau_bord_page today pannes d e) as [Hi _].
  eexists. split; [exact Hi|].
  cbn [reservations_stats salles_stats]. split; [|split].
  - intros rows. destruct (hd false (tl (tl (tl (tl pannes)))));
      [discriminate|].
    unfold graphique. destruct (df_empty (q_reservations_stats d));
      [discriminate|].
    intros H. injection H as <-. split; [reflexivity|].
    apply q_reservations_stats_spec.
  - intros rows. destruct (hd false (tl (tl (tl (tl (tl pannes))))));
      [discriminate|].
    unfold graphique. destruct (df_empty (q_salles_stats d)); [discriminate|].
    intros H. injection H as <-. split; [reflexivity|].
    apply q_salles_stats_spec.
  - intros Hvide. destruct (hd false (tl (tl (tl (tl pannes)))));
      [reflexivity|].
    unfold q_reservations_stats. rewrite Hvide. reflexivity.
Qed.

Lemma tableau_bord_page_graphiques_temoin :
  aujourdhui base_exemple = 19875
  /\ map r_DateReservation (Reservations base_exemple)
     = [19876; 19876; 19876; 19876]
  /\ exists rows,
       option_map reservations_stats
         (match issue (run (tableau_bord_page 19875) [] base_exemple []) with
          | Termine t => Some t
          | Relance => None
          end) = Some (Some rows)
       /\ somme rows = 4
       /\ NoDup (map fst rows).
Proof.
  split; [reflexivity|]. split; [reflexivity|].
  destruct (tableau_bord_page_graphiques 19875 [] base_exemple [])
    as (t & Ht & Hstats & _).
  rewrite Ht. cbn [option_map].
  destruct (reservations_stats t) as [rows|] eqn:Er.
  - exists rows. split; [reflexivity|].
    destruct (Hstats rows eq_refl) as (_ & Hnd & _ & Hsum).
    split; [rewrite Hsum; reflexivity | exact Hnd].
  - exfalso. vm_compute in Ht. injection Ht as Ht. rewrite <- Ht in Er.
    discriminate Er.
Defined.

(** ** What the reservation page reports *)

(** X13: whatever the stored procedure does, a run of [reservation_page]
    with a submitted form never ends silently: either the call of
    [sp_ReserverSalle] has succeeded, the database is what the procedure
    returned, the page shows "Réservation créée" and reruns; or the
    database is unchanged and the last message shown is an error.  The
    success message is never shown after a call that failed. *)
Theorem reservation_page_compte_rendu (sem : Semantique) (user : User)
    (f : Formulaire) (pannes : list bool) (d : DB) (e : list Message) :
  submit f = true ->
  (issue (fst (suivre sem (reservation_page user f) pannes d e)) = Relance
   /\ ecran (fst (suivre sem (reservation_page user f) pannes d e))
      = e ++ [ReservationCreee]
   /\ sem sp_ReserverSalle
        [VInt (UserID user); VInt (salle_selected f); VInt (type_selected f);
         VStr (strip (objet_reunion f)); VDate (date_reservation f);
         VTime (heure_debut f); VTime (heure_fin f); VInt 0] d
      = inr (base (fst (suivre sem (reservation_page user f) pannes d e))))
  \/ (issue (fst (suivre sem (reservation_page user f) pannes d e)) = Termine tt
      /\ base (fst (suivre sem (reservation_page user f) pannes d e)) = d
      /\ exists avant m err,
           ecran (fst (suivre sem (reservation_page user f) pannes d e))
           = avant ++ [m]
           /\ categorie m = Some err).
Proof.
  intros Hs. unfold reservation_page, get_salles, get_types_evenements.
  rewrite !suivre_query, Hs.
  destruct (hd false pannes).
  { right. cbn [df_empty orb]. repeat split. do 3 eexists. split; reflexivity. }
  destruct (hd false (tl pannes)).
  { right. cbn [df_empty]. rewrite orb_true_r. repeat split.
    do 3 eexists. split; reflexivity. }
  destruct (df_empty (q_salles d) || df_empty (q_types_evenements d)).
  { right. repeat split. do 3 eexists. split; reflexivity. }
  unfold soumettre.
  destruct (str_vide (strip (objet_reunion f))).
  { right. repeat split. do 3 eexists. split; reflexivity. }
  destruct (time_leb (heure_fin f) (heure_debut f)).
  { right. repeat split. do 3 eexists. split; reflexivity. }
  rewrite suivre_bind, suivre_check_availability.
  destruct (hd false (tl (tl pannes))).
  { right. repeat split. do 3 eexists. split; reflexivity. }
  cbn [fst snd issue pannes_restantes base ecran].
  destruct (fn_SalleDisponible d _ _ _ _).
  2:{ right. repeat split. do 3 eexists. split; reflexivity. }
  cbn [negb]. unfold reserver. rewrite suivre_procedure. cbn [fst].
  unfold executer_avec.
  destruct (hd false (tl (tl (tl pannes)))).
  { right. repeat split. do 3 eexists. split; reflexivity. }
  destruct (sem sp_ReserverSalle _ d) as [err | d'] eqn:Ex.
  - right. cbn. repeat split. do 3 eexists. split; reflexivity.
  - left. cbn. repeat split.
Qed.

Lemma reservation_page_compte_rendu_temoin :
  issue (fst (suivre sem_refus
                (reservation_page (session alice)
                   (demande (h 9 0) (h 10 0) (lit "Point hebdo")))
                [] base_vide [])) = Termine tt
  /\ base (fst (suivre sem_refus
                  (reservation_page (session alice)
                     (demande (h 9 0) (h 10 0) (lit "Point hebdo")))
                  [] base_vide [])) = base_vide.
Proof.
  destruct (reservation_page_compte_rendu sem_refus (session alice)
              (demande (h 9 0) (h 10 0) (lit "Point hebdo")) [] base_vide []
              eq_refl) as [(H & _) | (H1 & H2 & _)].
  - vm_compute in H. discriminate H.
  - split; assumption.
Defined.
